(** * Relationship mutation augmentation (src/augment/types/relationship/mutation.js)

    A shallow embedding of the pass that, for one use of a relationship type
    as a field of a node type, adds the [Add...] and [Remove...] fields to the
    Mutation operation type and writes the generated input and payload types.

    Conventions of the embedding.
    - JavaScript strings are [string]; GraphQL names are ASCII, and
      [toUpperCase] / [toLowerCase] are the ASCII case maps.
    - JavaScript objects used as maps ([operationTypeMap], [generatedTypeMap],
      [typeDefinitionMap], the [wrappers] literal) are [gmap string _].
    - In-place mutation (Array.prototype.push on the Mutation field list,
      assignment into [generatedTypeMap]) is explicit state passing: every
      builder takes the registry and returns the updated one, as the source
      does with its return values.
      The three registries, and the entries of each, are distinct objects.
    - A thrown TypeError is [Throw TypeError] in the [result] monad.
    - What the pass imports is not part of its source file. The functions
      whose results it only passes on (the directive builders and matchers,
      [buildNamedType], the node output fields, the applicability and
      authorization predicates) and the constants it only passes on are the
      members of the class [Collaborators]. The AST node constructors,
      [getFieldDefinition] and the constants whose values the spec gives are
      definitions modelled from the spec. *)

From Stdlib Require Import String Ascii List Arith Lia.
From stdpp Require Import base strings gmap list.

Local Open Scope string_scope.
Local Open Scope list_scope.

(** ** JavaScript strings *)

Definition ascii_toUpperCase (c : ascii) : ascii :=
  let n := nat_of_ascii c in
  if Nat.leb 97 n && Nat.leb n 122 then ascii_of_nat (n - 32) else c.

Definition ascii_toLowerCase (c : ascii) : ascii :=
  let n := nat_of_ascii c in
  if Nat.leb 65 n && Nat.leb n 90 then ascii_of_nat (n + 32) else c.

Fixpoint string_map (f : ascii -> ascii) (s : string) : string :=
  match s with
  | EmptyString => EmptyString
  | String c s' => String (f c) (string_map f s')
  end.

(** [s.toUpperCase()] and [s.toLowerCase()] *)
Definition toUpperCase (s : string) : string := string_map ascii_toUpperCase s.
Definition toLowerCase (s : string) : string := string_map ascii_toLowerCase s.

(** [s.substr(start)]: the suffix of [s] from index [start] on *)
Definition substr (start : nat) (s : string) : string :=
  substring start (String.length s - start) s.

(** The last character of a string, used to tell generated names apart. *)
Fixpoint last_char (s : string) : option ascii :=
  match s with
  | EmptyString => None
  | String c EmptyString => Some c
  | String _ s' => last_char s'
  end.

(** ** Exceptions *)

Inductive JsError : Type := TypeError.

Inductive result (A : Type) : Type :=
| Ok (a : A)
| Throw (e : JsError).
Arguments Ok {A} a.
Arguments Throw {A} e.

Definition bind {A B} (r : result A) (k : A -> result B) : result B :=
  match r with
  | Ok a => k a
  | Throw e => Throw e
  end.

Notation "'try!' x ':=' r 'in' k" := (bind r (fun x => k))
  (at level 10, x name, r at level 100, k at level 200).

(** [xs.forEach(x => { state = body(state, x) })]: the callback runs on each
    element in order; an exception leaves the loop at once. *)
Fixpoint forEach {A S} (body : S -> A -> result S) (xs : list A) (s : S) : result S :=
  match xs with
  | [] => Ok s
  | x :: xs' => try! s' := body s x in forEach body xs' s'
  end.

(** ** AST nodes *)

(** The node types the pass never looks into. *)
Class Carriers : Type := {
  Directive : Type;   (* a directive instance *)
  TypeNode : Type;    (* a type reference: named type with its wrappers applied *)
  Config : Type       (* the augmentation configuration *)
}.

Section Ast.
Context `{Carriers}.

(** [{ kind: 'Name', value }] *)
Record NameNode : Type := { value : string }.

(** An input value definition: an argument of a field, or a field of an
    input object type. *)
Record InputValueDefinition : Type := {
  iv_name : NameNode;
  iv_type : TypeNode;
  iv_directives : list Directive
}.

(** A field definition of an object type. *)
Record FieldDefinition : Type := {
  fd_name : NameNode;
  fd_type : TypeNode;
  fd_arguments : list InputValueDefinition;
  fd_directives : list Directive
}.

(** An object type definition; the operation types are object types. *)
Record ObjectTypeDefinition : Type := {
  ot_name : NameNode;
  ot_fields : list FieldDefinition;
  ot_directives : list Directive
}.

(** An input object type definition. *)
Record InputObjectTypeDefinition : Type := {
  io_name : NameNode;
  io_fields : list InputValueDefinition
}.

(** The values of [typeDefinitionMap] and [generatedTypeMap]. *)
Inductive TypeDefinition : Type :=
| ObjectType (d : ObjectTypeDefinition)
| InputObjectType (d : InputObjectTypeDefinition).

(** The argument object of [buildNamedType]: [{ name, wrappers }]. *)
Record NamedTypeConfig : Type := {
  nt_name : string;
  nt_wrappers : gmap string bool
}.

(** An element of [propertyInputValues], as the upstream pass resolved it:
    [{ name, type: { name, wrappers }, directives }]. *)
Record PropertyInputValue : Type := {
  pi_name : string;
  pi_type : NamedTypeConfig;
  pi_directives : list Directive
}.

(** An element of the [scopes] array given to [buildAuthScopeDirective]. *)
Record Scope : Type := {
  scope_typeName : string;
  scope_mutation : string
}.

(** The constructors of '../../ast' are not among the sources; the spec
    gives them as pure constructors that assemble tree nodes from what they
    are passed. Each is the record of its arguments. *)

(** Modelled from the spec: [buildName] of '../../ast', a name node of the
    given value. *)
Definition buildName (name : string) : NameNode := {| value := name |}.

(** Modelled from the spec: [buildInputValue] of '../../ast', called with
    a name and a type only; the node has no directives. *)
Definition buildInputValue (name : NameNode) (type : TypeNode) : InputValueDefinition :=
  {| iv_name := name; iv_type := type; iv_directives := [] |}.

(** Modelled from the spec: [buildField] of '../../ast', a field
    definition of the given name, type, arguments and directives. *)
Definition buildField (name : NameNode) (type : TypeNode)
    (args : list InputValueDefinition) (directives : list Directive) : FieldDefinition :=
  {| fd_name := name; fd_type := type; fd_arguments := args; fd_directives := directives |}.

(** Modelled from the spec: [buildObjectType] of '../../ast', an object
    type definition of the given name, fields and directives. *)
Definition buildObjectType (name : NameNode) (fields : list FieldDefinition)
    (directives : list Directive) : TypeDefinition :=
  ObjectType {| ot_name := name; ot_fields := fields; ot_directives := directives |}.

(** Modelled from the spec: [buildInputObjectType] of '../../ast', an
    input object type definition of the given name and fields. *)
Definition buildInputObjectType (name : NameNode)
    (fields : list InputValueDefinition) : TypeDefinition :=
  InputObjectType {| io_name := name; io_fields := fields |}.

(** Modelled from the spec: [getFieldDefinition] of '../../fields' is not
    among the sources; the spec has the guard ask whether a field of that
    exact name already exists in the field list. It gives the first field
    of that name, or nothing ([undefined]). *)
Definition getFieldDefinition (fields : list FieldDefinition) (name : string)
    : option FieldDefinition :=
  List.find (fun field => String.eqb (value (fd_name field)) name) fields.
End Ast.

(** Modelled from the spec: [OperationType.MUTATION] of '../../types/types'
    is not among the sources; the spec names the operation kind [Mutation]. *)
Definition OperationType_MUTATION : string := "Mutation".

(** Modelled from the spec: [RelationshipDirectionField.FROM] of
    './relationship' is not among the sources; the spec names the direction
    key [from]. *)
Definition RelationshipDirectionField_FROM : string := "from".

(** Modelled from the spec: [RelationshipDirectionField.TO] of
    './relationship' is not among the sources; the spec names the direction
    key [to]. *)
Definition RelationshipDirectionField_TO : string := "to".

(** The imported functions and constants the pass consumes. *)
Class Collaborators `{Carriers} : Type := {
  (* '../../fields' *)
  TypeWrappers_NON_NULL_NAMED_TYPE : string;
  (* '../../ast' *)
  buildNamedType : NamedTypeConfig -> TypeNode;
  (* '../../directives' *)
  DirectiveDefinition_CYPHER : string;
  DirectiveDefinition_HAS_SCOPE : string;
  buildAuthScopeDirective : list Scope -> Directive;
  buildMutationMetaDirective : string -> string -> string -> Directive;
  buildRelationDirective : string -> string -> string -> Directive;
  useAuthDirective : Config -> string -> bool;
  getDirective : list Directive -> string -> option Directive;
  isCypherField : list Directive -> bool;
  (* './query' *)
  buildNodeOutputFields : string -> string -> list FieldDefinition;
  (* '../../augment' *)
  shouldAugmentRelationshipField : Config -> string -> string -> string -> bool
}.

(** ** The pass *)

(** JavaScript truthiness of the values the pass tests. *)
Definition truthy_length (n : nat) : bool := negb (Nat.eqb n 0).
Definition truthy_string (s : string) : bool := negb (String.eqb s "").
Definition truthy_object {A} (o : option A) : bool :=
  match o with Some _ => true | None => false end.

(** [RelationshipMutation]: the names of relationship mutations. *)
Definition RelationshipMutation_CREATE : string := "Add".
Definition RelationshipMutation_DELETE : string := "Remove".

(** [Object.values(RelationshipMutation)], in insertion order *)
Definition RelationshipMutation_values : list string :=
  [RelationshipMutation_CREATE; RelationshipMutation_DELETE].

Section Pass.
Context `{Collaborators}.

(** The relationship descriptor part of the orchestrator's argument object.
    An absent [propertyInputValues] or [propertyOutputFields] defaults to
    the empty array. *)
Record RelationshipDescriptor : Type := {
  typeName : string;
  fieldName : string;
  outputType : string;
  fromType : string;
  toType : string;
  relationshipName : string;
  propertyInputValues : list PropertyInputValue;
  propertyOutputFields : list FieldDefinition
}.

(** Builds the full name value for a relationship mutation field.
    [fieldName[0]] is [undefined] for the empty string, and calling
    [toUpperCase] on it throws a TypeError. *)
Definition buildRelationshipMutationName
    (mutationAction typeName fieldName : string) : result string :=
  match String.get 0 fieldName with
  | None => Throw TypeError
  | Some c =>
      Ok (mutationAction +:+ typeName +:+
          (toUpperCase (String c "") +:+ substr 1 fieldName))
  end.

(** The [from] and [to] arguments selecting the related nodes. *)
Definition buildNodeSelectionArguments (fromType toType : string)
    : list InputValueDefinition :=
  [ buildInputValue
      (buildName RelationshipDirectionField_FROM)
      (buildNamedType
         {| nt_name := "_" +:+ fromType +:+ "Input";
            nt_wrappers := {[ TypeWrappers_NON_NULL_NAMED_TYPE := true ]} |});
    buildInputValue
      (buildName RelationshipDirectionField_TO)
      (buildNamedType
         {| nt_name := "_" +:+ toType +:+ "Input";
            nt_wrappers := {[ TypeWrappers_NON_NULL_NAMED_TYPE := true ]} |}) ].

(** The [data] argument of the Add mutation field. *)
Definition buildRelationshipPropertyInputArgument (outputType : string)
    : InputValueDefinition :=
  buildInputValue
    (buildName "data")
    (buildNamedType
       {| nt_name := "_" +:+ outputType +:+ "Input";
          nt_wrappers := {[ TypeWrappers_NON_NULL_NAMED_TYPE := true ]} |}).

(** The arguments of a generated relationship mutation field. *)
Definition buildRelationshipMutationArguments
    (mutationAction fromType toType : string)
    (propertyOutputFields : list FieldDefinition)
    (outputType : string) : list InputValueDefinition :=
  let fieldArguments := buildNodeSelectionArguments fromType toType in
  if String.eqb mutationAction RelationshipMutation_CREATE
     && truthy_length (length propertyOutputFields)
  then fieldArguments ++ [buildRelationshipPropertyInputArgument outputType]
  else fieldArguments.

(** The directives of a generated relationship mutation field. *)
Definition buildRelationshipMutationDirectives
    (mutationAction relationshipName fromType toType : string)
    (propertyOutputFields : list FieldDefinition)
    (config : Config) : list Directive :=
  let mutationMetaDirective :=
    buildMutationMetaDirective relationshipName fromType toType in
  let directives := [mutationMetaDirective] in
  if useAuthDirective config DirectiveDefinition_HAS_SCOPE then
    let authAction :=
      if String.eqb mutationAction RelationshipMutation_CREATE then "Create"
      else if String.eqb mutationAction RelationshipMutation_DELETE then "Delete"
      else "" in
    if truthy_string authAction then
      directives ++
        [buildAuthScopeDirective
           [ {| scope_typeName := fromType; scope_mutation := authAction |};
             {| scope_typeName := toType; scope_mutation := authAction |} ]]
    else directives
  else directives.

(** Appends the Mutation operation field of a given relationship mutation
    name. [operationTypeMap[OperationType.MUTATION].fields] throws a
    TypeError when the map has no Mutation entry. *)
Definition buildRelationshipMutationField
    (mutationAction mutationName relationshipName fromType toType : string)
    (propertyOutputFields : list FieldDefinition)
    (mutationOutputType outputType : string)
    (operationTypeMap : gmap string ObjectTypeDefinition)
    (config : Config) : result (gmap string ObjectTypeDefinition) :=
  if String.eqb mutationAction RelationshipMutation_CREATE
     || String.eqb mutationAction RelationshipMutation_DELETE
  then
    match operationTypeMap !! OperationType_MUTATION with
    | None => Throw TypeError
    | Some mutationType =>
        let field :=
          buildField
            (buildName mutationName)
            (buildNamedType {| nt_name := mutationOutputType; nt_wrappers := ∅ |})
            (buildRelationshipMutationArguments
               mutationAction fromType toType propertyOutputFields outputType)
            (buildRelationshipMutationDirectives
               mutationAction relationshipName fromType toType
               propertyOutputFields config) in
        Ok (<[ OperationType_MUTATION :=
               {| ot_name := ot_name mutationType;
                  ot_fields := ot_fields mutationType ++ [field];
                  ot_directives := ot_directives mutationType |} ]>
            operationTypeMap)
    end
  else Ok operationTypeMap.

(** Writes the relationship property input object type, the type of the
    [data] argument. *)
Definition buildRelationshipMutationPropertyInputType
    (mutationAction outputType : string)
    (propertyInputValues : list PropertyInputValue)
    (generatedTypeMap : gmap string TypeDefinition) : gmap string TypeDefinition :=
  if String.eqb mutationAction RelationshipMutation_CREATE
     && truthy_length (length propertyInputValues)
  then
    let nonComputedPropertyInputFields :=
      List.filter
        (fun field =>
           let cypherDirective :=
             getDirective (pi_directives field) DirectiveDefinition_CYPHER in
           negb (truthy_object cypherDirective))
        propertyInputValues in
    let inputTypeName := "_" +:+ outputType +:+ "Input" in
    <[ inputTypeName :=
       buildInputObjectType
         (buildName inputTypeName)
         (List.map
            (fun inputValue =>
               buildInputValue
                 (buildName (pi_name inputValue))
                 (buildNamedType (pi_type inputValue)))
            nonComputedPropertyInputFields) ]>
    generatedTypeMap
  else generatedTypeMap.

(** Writes the object type used as the output type of a relationship
    mutation field. [{ ...field, arguments: [] }] keeps every other
    property of the field. *)
Definition buildRelationshipMutationOutputType
    (mutationAction mutationOutputType : string)
    (propertyOutputFields : list FieldDefinition)
    (relationshipName fromType toType : string)
    (generatedTypeMap : gmap string TypeDefinition) : gmap string TypeDefinition :=
  if String.eqb mutationAction RelationshipMutation_CREATE
     || String.eqb mutationAction RelationshipMutation_DELETE
  then
    let relationTypeDirective :=
      buildRelationDirective relationshipName fromType toType in
    let fields := buildNodeOutputFields fromType toType in
    let fields :=
      if String.eqb mutationAction RelationshipMutation_CREATE then
        let mutationOutputFields :=
          List.map
            (fun field =>
               if isCypherField (fd_directives field) then
                 {| fd_name := fd_name field;
                    fd_type := fd_type field;
                    fd_arguments := [];
                    fd_directives := fd_directives field |}
               else field)
            propertyOutputFields in
        fields ++ mutationOutputFields
      else fields in
    <[ mutationOutputType :=
       buildObjectType (buildName mutationOutputType) fields [relationTypeDirective] ]>
    generatedTypeMap
  else generatedTypeMap.

(** The pair [[operationTypeMap, generatedTypeMap]] threaded through the
    builders. *)
Definition Registries : Type :=
  (gmap string ObjectTypeDefinition * gmap string TypeDefinition)%type.

(** Builds the AST definitions decided in [augmentRelationshipMutationAPI]. *)
Definition buildRelationshipMutationAPI
    (mutationAction mutationName relationshipName fromType toType : string)
    (propertyInputValues : list PropertyInputValue)
    (propertyOutputFields : list FieldDefinition)
    (outputType : string)
    (generatedTypeMap : gmap string TypeDefinition)
    (operationTypeMap : gmap string ObjectTypeDefinition)
    (config : Config) : result Registries :=
  let mutationOutputType := "_" +:+ mutationName +:+ "Payload" in
  try! operationTypeMap :=
    buildRelationshipMutationField
      mutationAction mutationName relationshipName fromType toType
      propertyOutputFields mutationOutputType outputType operationTypeMap config in
  let generatedTypeMap :=
    buildRelationshipMutationPropertyInputType
      mutationAction outputType propertyInputValues generatedTypeMap in
  let generatedTypeMap :=
    buildRelationshipMutationOutputType
      mutationAction mutationOutputType propertyOutputFields
      relationshipName fromType toType generatedTypeMap in
  Ok (operationTypeMap, generatedTypeMap).

(** The callback of the [forEach] over the mutation actions.
    [mutationType] was read from [operationTypeMap] before the loop and is
    the very object the registrar pushes onto, so [mutationType.fields] is
    the field list of the current Mutation entry. *)
Definition augmentAction (d : RelationshipDescriptor) (config : Config)
    (registries : Registries) (mutationAction : string) : result Registries :=
  let '(operationTypeMap, generatedTypeMap) := registries in
  try! mutationName :=
    buildRelationshipMutationName mutationAction (typeName d) (fieldName d) in
  match operationTypeMap !! OperationType_MUTATION with
  | None => Throw TypeError
  | Some mutationType =>
      if negb (truthy_object (getFieldDefinition (ot_fields mutationType) mutationName))
      then
        buildRelationshipMutationAPI
          mutationAction mutationName (relationshipName d) (fromType d) (toType d)
          (propertyInputValues d) (propertyOutputFields d) (outputType d)
          generatedTypeMap operationTypeMap config
      else Ok (operationTypeMap, generatedTypeMap)
  end.

(** Given the results of [augmentRelationshipTypeFields], builds or
    augments the Mutation operation fields and the generated input and
    output types. Returns [[typeDefinitionMap, generatedTypeMap,
    operationTypeMap]]. *)
Definition augmentRelationshipMutationAPI
    (d : RelationshipDescriptor)
    (typeDefinitionMap : gmap string TypeDefinition)
    (generatedTypeMap : gmap string TypeDefinition)
    (operationTypeMap : gmap string ObjectTypeDefinition)
    (config : Config)
    : result (gmap string TypeDefinition * gmap string TypeDefinition
              * gmap string ObjectTypeDefinition) :=
  let mutationTypeName := OperationType_MUTATION in
  let mutationType := operationTypeMap !! mutationTypeName in
  let mutationTypeNameLower := toLowerCase mutationTypeName in
  if truthy_object mutationType
     && shouldAugmentRelationshipField
          config mutationTypeNameLower (fromType d) (toType d)
  then
    try! registries :=
      forEach (augmentAction d config) RelationshipMutation_values
        (operationTypeMap, generatedTypeMap) in
    let '(operationTypeMap, generatedTypeMap) := registries in
    Ok (typeDefinitionMap, generatedTypeMap, operationTypeMap)
  else Ok (typeDefinitionMap, generatedTypeMap, operationTypeMap).
End Pass.

(** ** Derived notions used in the statements *)

Section Derived.
Context `{Collaborators}.

(** How many fields of a field list carry a given name. *)
Definition count_named (name : string) (fields : list FieldDefinition) : nat :=
  length (List.filter (fun field => String.eqb (value (fd_name field)) name) fields).

(** The field list of the Mutation entry of an operation-type map; empty
    when the map has no Mutation entry. *)
Definition mutationFields (operationTypeMap : gmap string ObjectTypeDefinition)
    : list FieldDefinition :=
  match operationTypeMap !! OperationType_MUTATION with
  | Some mutationType => ot_fields mutationType
  | None => []
  end.

(** The non-null reference to the generated input type of [type]. *)
Definition nonNullInput (type : string) : TypeNode :=
  buildNamedType
    {| nt_name := "_" +:+ type +:+ "Input";
       nt_wrappers := {[ TypeWrappers_NON_NULL_NAMED_TYPE := true ]} |}.

(** The Mutation type [mutationType] after [fields.push(field)]. *)
Definition pushField (mutationType : ObjectTypeDefinition) (field : FieldDefinition)
    : ObjectTypeDefinition :=
  {| ot_name := ot_name mutationType;
     ot_fields := ot_fields mutationType ++ [field];
     ot_directives := ot_directives mutationType |}.

(** The field the registrar appends for [mutationAction] when run on the
    descriptor [d]. *)
Definition generatedField (d : RelationshipDescriptor) (config : Config)
    (mutationAction mutationName : string) : FieldDefinition :=
  buildField
    (buildName mutationName)
    (buildNamedType
       {| nt_name := "_" +:+ mutationName +:+ "Payload"; nt_wrappers := ∅ |})
    (buildRelationshipMutationArguments
       mutationAction (fromType d) (toType d) (propertyOutputFields d) (outputType d))
    (buildRelationshipMutationDirectives
       mutationAction (relationshipName d) (fromType d) (toType d)
       (propertyOutputFields d) config).

(** The generated-type map after the two type synthesizers have run for
    [mutationAction] on the descriptor [d]. *)
Definition generatedTypes (d : RelationshipDescriptor)
    (mutationAction mutationName : string)
    (generatedTypeMap : gmap string TypeDefinition) : gmap string TypeDefinition :=
  buildRelationshipMutationOutputType
    mutationAction ("_" +:+ mutationName +:+ "Payload") (propertyOutputFields d)
    (relationshipName d) (fromType d) (toType d)
    (buildRelationshipMutationPropertyInputType
       mutationAction (outputType d) (propertyInputValues d) generatedTypeMap).

(** A property output field as it appears in the Add payload, given the
    field it comes from. *)
Definition payload_copy (source copy : FieldDefinition) : Prop :=
  fd_name copy = fd_name source /\
  fd_type copy = fd_type source /\
  fd_directives copy = fd_directives source /\
  fd_arguments copy =
    (if isCypherField (fd_directives source) then [] else fd_arguments source).
End Derived.

(** ** A concrete set of collaborators

    Small stand-ins for the imported modules, on which the pass can be run:
    a directive is its name with its arguments, a type reference is a name
    with a non-null flag, and the configuration holds the two switches the
    pass asks about (authorization, augmentation). *)

Definition sampleCarriers : Carriers :=
  {| Directive := (string * list string)%type;
     TypeNode := (string * bool)%type;
     Config := (bool * bool)%type |}.

Definition sampleCollaborators : @Collaborators sampleCarriers :=
  {| TypeWrappers_NON_NULL_NAMED_TYPE := "isNonNullNamedType";
     buildNamedType := fun c =>
       (nt_name c,
        match nt_wrappers c !! "isNonNullNamedType" with
        | Some b => b
        | None => false
        end) : @TypeNode sampleCarriers;
     DirectiveDefinition_CYPHER := "cypher";
     DirectiveDefinition_HAS_SCOPE := "hasScope";
     buildAuthScopeDirective := fun scopes =>
       ("hasScope",
        List.map (fun s => scope_typeName s +:+ ": " +:+ scope_mutation s) scopes)
       : @Directive sampleCarriers;
     buildMutationMetaDirective := fun r f t =>
       ("MutationMeta", [r; f; t]) : @Directive sampleCarriers;
     buildRelationDirective := fun r f t =>
       ("relation", [r; f; t]) : @Directive sampleCarriers;
     useAuthDirective := fun (c : @Config sampleCarriers) _ => fst c;
     getDirective := fun (ds : list (@Directive sampleCarriers)) n =>
       List.find (fun d => String.eqb (fst d) n) ds;
     isCypherField := fun (ds : list (@Directive sampleCarriers)) =>
       List.existsb (fun d => String.eqb (fst d) "cypher") ds;
     buildNodeOutputFields := fun f t =>
       [ @buildField sampleCarriers (buildName "from") (f, false) [] [];
         @buildField sampleCarriers (buildName "to") (t, false) [] [] ];
     shouldAugmentRelationshipField := fun (c : @Config sampleCarriers) _ _ _ => snd c |}.

Definition sampleType (name : string) (nonNull : bool) : @TypeNode sampleCarriers :=
  (name, nonNull).

Definition sampleDirective (name : string) (args : list string)
    : @Directive sampleCarriers :=
  (name, args).

(** The relationship of the end-to-end scenario: [Person.knows] of type
    [Knows], with one stored and one computed property. *)
Definition sampleSince : @FieldDefinition sampleCarriers :=
  {| fd_name := buildName "since"; fd_type := sampleType "Int" false;
     fd_arguments := []; fd_directives := [] |}.

Definition sampleScore : @FieldDefinition sampleCarriers :=
  {| fd_name := buildName "score"; fd_type := sampleType "Float" false;
     fd_arguments :=
       [ {| iv_name := buildName "scale"; iv_type := sampleType "Int" false;
            iv_directives := [] |} ];
     fd_directives := [sampleDirective "cypher" ["RETURN 1.0"]] |}.

Definition samplePersonKnows
    (inputs : list (@PropertyInputValue sampleCarriers))
    (outputs : list (@FieldDefinition sampleCarriers))
    : @RelationshipDescriptor sampleCarriers :=
  {| typeName := "Person"; fieldName := "knows"; outputType := "Knows";
     fromType := "Person"; toType := "Person"; relationshipName := "KNOWS";
     propertyInputValues := inputs; propertyOutputFields := outputs |}.

Definition sampleInputs : list (@PropertyInputValue sampleCarriers) :=
  [ {| pi_name := "since";
       pi_type := {| nt_name := "Int"; nt_wrappers := ∅ |};
       pi_directives := [] |};
    {| pi_name := "score";
       pi_type := {| nt_name := "Float"; nt_wrappers := ∅ |};
       pi_directives := [sampleDirective "cypher" ["RETURN 1.0"]] |} ].

(** An operation-type map whose Mutation type has no field yet. *)
Definition sampleOperationTypeMap : gmap string (@ObjectTypeDefinition sampleCarriers) :=
  {[ "Mutation" := {| ot_name := buildName "Mutation"; ot_fields := [];
                      ot_directives := [] |} ]}.

(** Authorization and augmentation both switched on. *)
Definition sampleConfig : @Config sampleCarriers := (true, true).

Definition sampleKnows : @RelationshipDescriptor sampleCarriers :=
  samplePersonKnows sampleInputs [sampleSince; sampleScore].

(** The same relationship with property output fields only. *)
Definition sampleKnowsOutputsOnly : @RelationshipDescriptor sampleCarriers :=
  samplePersonKnows [] [sampleSince].

(** A malformed descriptor: the field name is empty. *)
Definition sampleUnnamed : @RelationshipDescriptor sampleCarriers :=
  {| typeName := "Person"; fieldName := ""; outputType := "Knows";
     fromType := "Person"; toType := "Person"; relationshipName := "KNOWS";
     propertyInputValues := []; propertyOutputFields := [] |}.

(** The orchestrator on the sample collaborators. *)
Definition sampleRun (d : @RelationshipDescriptor sampleCarriers)
    (typeDefinitionMap generatedTypeMap : gmap string (@TypeDefinition sampleCarriers))
    (operationTypeMap : gmap string (@ObjectTypeDefinition sampleCarriers)) :=
  @augmentRelationshipMutationAPI sampleCarriers sampleCollaborators
    d typeDefinitionMap generatedTypeMap operationTypeMap sampleConfig.

(** A second relationship whose generated names are those of [sampleKnows]:
    the field is [Knows] instead of [knows], the relationship and the to
    type are others. *)
Definition sampleLikes : @RelationshipDescriptor sampleCarriers :=
  {| typeName := "Person"; fieldName := "Knows"; outputType := "Likes";
     fromType := "Person"; toType := "Movie"; relationshipName := "LIKES";
     propertyInputValues := sampleInputs; propertyOutputFields := [sampleSince] |}.

(** A field of the name [AddPersonKnows] that the schema declares itself. *)
Definition sampleDeclaredAdd : @FieldDefinition sampleCarriers :=
  {| fd_name := buildName "AddPersonKnows"; fd_type := sampleType "Boolean" false;
     fd_arguments := []; fd_directives := [] |}.

(** An operation-type map whose Mutation type declares [AddPersonKnows]. *)
Definition sampleOperationTypeMapWithAdd
    : gmap string (@ObjectTypeDefinition sampleCarriers) :=
  {[ "Mutation" := {| ot_name := buildName "Mutation";
                      ot_fields := [sampleDeclaredAdd];
                      ot_directives := [] |} ]}.

(** Property input values that are all computed. *)
Definition sampleComputedInputs : list (@PropertyInputValue sampleCarriers) :=
  [ {| pi_name := "score";
       pi_type := {| nt_name := "Float"; nt_wrappers := ∅ |};
       pi_directives := [sampleDirective "cypher" ["RETURN 1.0"]] |} ].

(** * Properties *)

(** ** Strings *)

Lemma substring_whole (s : string) : substring 0 (String.length s) s = s.
Proof. induction s as [|c s IH]; simpl; [reflexivity | now rewrite IH]. Qed.

Lemma substr_1_String (c : ascii) (s : string) : substr 1 (String c s) = s.
Proof.
  unfold substr. cbn [String.length]. rewrite Nat.sub_succ, Nat.sub_0_r.
  cbn [substring]. apply substring_whole.
Qed.

Lemma last_char_app (s t : string) :
  t <> "" -> last_char (s +:+ t) = last_char t.
Proof.
  intros Ht. induction s as [|c s IH]; [reflexivity|].
  change (String c s +:+ t) with (String c (s +:+ t)).
  destruct (s +:+ t) eqn:E.
  - destruct s; [exact (False_ind _ (Ht E)) | discriminate E].
  - exact IH.
Qed.

Lemma append_nonempty (s t : string) : t <> "" -> s +:+ t <> "".
Proof. destruct s; [trivial | discriminate]. Qed.

Lemma last_char_app3 (s1 s2 t : string) :
  t <> "" -> last_char (s1 +:+ s2 +:+ t) = last_char t.
Proof.
  intros Ht. rewrite last_char_app by now apply append_nonempty.
  now apply last_char_app.
Qed.

Lemma payload_name_not_input_name (mutationName outputType : string) :
  "_" +:+ mutationName +:+ "Payload" <> "_" +:+ outputType +:+ "Input".
Proof.
  intros E. apply (f_equal last_char) in E.
  rewrite !last_char_app3 in E by discriminate.
  discriminate E.
Qed.

Lemma eqb_CREATE_DELETE :
  String.eqb RelationshipMutation_DELETE RelationshipMutation_CREATE = false.
Proof. reflexivity. Qed.

(** ** The naming resolver *)

Lemma buildRelationshipMutationName_String (a t : string) (c : ascii) (rest : string) :
  buildRelationshipMutationName a t (String c rest)
  = Ok (a +:+ t +:+ String (ascii_toUpperCase c) rest).
Proof.
  unfold buildRelationshipMutationName. cbn [String.get].
  rewrite substr_1_String. reflexivity.
Qed.

Lemma buildRelationshipMutationName_empty (a t : string) :
  buildRelationshipMutationName a t "" = Throw TypeError.
Proof. reflexivity. Qed.

Lemma buildRelationshipMutationName_total (a t f : string) :
  f <> "" -> exists n, buildRelationshipMutationName a t f = Ok n.
Proof.
  destruct f as [|c rest]; [congruence|]. intros _.
  eexists. apply buildRelationshipMutationName_String.
Qed.

(** The Add name and the Remove name of one descriptor differ. *)
Lemma add_name_not_remove_name (t f addName removeName : string) :
  buildRelationshipMutationName RelationshipMutation_CREATE t f = Ok addName ->
  buildRelationshipMutationName RelationshipMutation_DELETE t f = Ok removeName ->
  addName <> removeName.
Proof.
  destruct f as [|c rest]; [discriminate|].
  rewrite !buildRelationshipMutationName_String.
  intros [= <-] [= <-]. discriminate.
Qed.

Section NamingProperties.
Context `{Collaborators}.

(** C2. The mutation field name is a function of the action, the type name
    and the field name alone: the action label, then the type name, then
    the field name with its first character in upper case. For a descriptor
    of type [Person] and field [knows] the Add name is [AddPersonKnows] and
    the Remove name is [RemovePersonKnows]. *)
Theorem mutation_name_is_action_type_capitalized_field :
  (forall (mutationAction typeName : string) (c : ascii) (rest : string),
      buildRelationshipMutationName mutationAction typeName (String c rest)
      = Ok (mutationAction +:+ typeName
            +:+ (toUpperCase (String c "") +:+ rest)))
  /\ (forall d : RelationshipDescriptor,
        typeName d = "Person" -> fieldName d = "knows" ->
        buildRelationshipMutationName
          RelationshipMutation_CREATE (typeName d) (fieldName d)
        = Ok "AddPersonKnows"
        /\ buildRelationshipMutationName
             RelationshipMutation_DELETE (typeName d) (fieldName d)
           = Ok "RemovePersonKnows").
Proof.
  split.
  - intros. apply buildRelationshipMutationName_String.
  - intros d -> ->. split; reflexivity.
Qed.
End NamingProperties.

Section BuilderProperties.
Context `{Collaborators}.

Lemma is_mutation_action (mutationAction : string) :
  mutationAction = RelationshipMutation_CREATE
  \/ mutationAction = RelationshipMutation_DELETE ->
  String.eqb mutationAction RelationshipMutation_CREATE
  || String.eqb mutationAction RelationshipMutation_DELETE = true.
Proof. intros [-> | ->]; reflexivity. Qed.

(** The registrar appends exactly one field, built from the name, the
    payload type name, the arguments and the directives. *)
Lemma buildRelationshipMutationField_pushes
    (mutationAction mutationName relationshipName fromType toType : string)
    (propertyOutputFields : list FieldDefinition)
    (mutationOutputType outputType : string)
    (operationTypeMap : gmap string ObjectTypeDefinition)
    (config : Config) (mutationType : ObjectTypeDefinition) :
  mutationAction = RelationshipMutation_CREATE
  \/ mutationAction = RelationshipMutation_DELETE ->
  operationTypeMap !! OperationType_MUTATION = Some mutationType ->
  buildRelationshipMutationField
    mutationAction mutationName relationshipName fromType toType
    propertyOutputFields mutationOutputType outputType operationTypeMap config
  = Ok (<[ OperationType_MUTATION :=
           pushField mutationType
             (buildField
                (buildName mutationName)
                (buildNamedType {| nt_name := mutationOutputType; nt_wrappers := ∅ |})
                (buildRelationshipMutationArguments
                   mutationAction fromType toType propertyOutputFields outputType)
                (buildRelationshipMutationDirectives
                   mutationAction relationshipName fromType toType
                   propertyOutputFields config)) ]>
        operationTypeMap).
Proof.
  intros Ha Hm. unfold buildRelationshipMutationField.
  rewrite (is_mutation_action _ Ha), Hm. reflexivity.
Qed.

Lemma truthy_length_nonempty {A} (l : list A) :
  l <> [] -> truthy_length (length l) = true.
Proof. destruct l; [congruence | reflexivity]. Qed.

(** C3. The Remove field takes exactly the two arguments [from] and [to],
    whatever the property output fields are; the Add field takes [from],
    [to] and [data] when there are property output fields and [from] and
    [to] otherwise. [from] is typed with the non-null input type of the
    from type, [to] with that of the to type, [data] with that of the
    relationship type, in this order; and these are the arguments of the
    field the registrar appends to the Mutation type. *)
Theorem mutation_field_arguments (d : RelationshipDescriptor) :
  let from := buildInputValue (buildName "from") (nonNullInput (fromType d)) in
  let to := buildInputValue (buildName "to") (nonNullInput (toType d)) in
  let data := buildInputValue (buildName "data") (nonNullInput (outputType d)) in
  let arguments_of mutationAction :=
    buildRelationshipMutationArguments
      mutationAction (fromType d) (toType d) (propertyOutputFields d) (outputType d) in
  arguments_of RelationshipMutation_DELETE = [from; to]
  /\ (propertyOutputFields d <> [] ->
      arguments_of RelationshipMutation_CREATE = [from; to; data])
  /\ (propertyOutputFields d = [] ->
      arguments_of RelationshipMutation_CREATE = [from; to])
  /\ (forall mutationAction mutationName mutationOutputType config
             operationTypeMap mutationType,
        mutationAction = RelationshipMutation_CREATE
        \/ mutationAction = RelationshipMutation_DELETE ->
        operationTypeMap !! OperationType_MUTATION = Some mutationType ->
        exists field,
          buildRelationshipMutationField
            mutationAction mutationName (relationshipName d) (fromType d) (toType d)
            (propertyOutputFields d) mutationOutputType (outputType d)
            operationTypeMap config
          = Ok (<[ OperationType_MUTATION := pushField mutationType field ]>
                operationTypeMap)
          /\ fd_arguments field = arguments_of mutationAction).
Proof.
  cbv zeta. split; [reflexivity|]. split; [|split].
  - intros Hne. unfold buildRelationshipMutationArguments.
    rewrite (truthy_length_nonempty _ Hne). reflexivity.
  - intros ->. reflexivity.
  - intros a n mot cfg otm mt Ha Hm. eexists. split.
    + apply buildRelationshipMutationField_pushes; eassumption.
    + reflexivity.
Qed.

(** C7. The directive list of a generated mutation field starts with the
    mutation-metadata directive of the relationship triple, for every
    action. With scope authorization enabled, the Add and the Remove field
    carry after it exactly one authorization directive, of two scopes, the
    from type and then the to type, both tagged [Create] for Add and
    [Delete] for Remove. With it disabled the metadata directive is the
    whole list. These are the directives of the field the registrar appends
    to the Mutation type. *)
Theorem mutation_field_directives
    (relationshipName fromType toType : string)
    (propertyOutputFields : list FieldDefinition) (config : Config) :
  let meta := buildMutationMetaDirective relationshipName fromType toType in
  let auth verb :=
    buildAuthScopeDirective
      [ {| scope_typeName := fromType; scope_mutation := verb |};
        {| scope_typeName := toType; scope_mutation := verb |} ] in
  let directives_of mutationAction :=
    buildRelationshipMutationDirectives
      mutationAction relationshipName fromType toType propertyOutputFields config in
  (forall mutationAction, head (directives_of mutationAction) = Some meta)
  /\ (useAuthDirective config DirectiveDefinition_HAS_SCOPE = true ->
      directives_of RelationshipMutation_CREATE = [meta; auth "Create"]
      /\ directives_of RelationshipMutation_DELETE = [meta; auth "Delete"])
  /\ (useAuthDirective config DirectiveDefinition_HAS_SCOPE = false ->
      forall mutationAction, directives_of mutationAction = [meta])
  /\ (forall mutationAction mutationName mutationOutputType outputType
             operationTypeMap mutationType,
        mutationAction = RelationshipMutation_CREATE
        \/ mutationAction = RelationshipMutation_DELETE ->
        operationTypeMap !! OperationType_MUTATION = Some mutationType ->
        exists field,
          buildRelationshipMutationField
            mutationAction mutationName relationshipName fromType toType
            propertyOutputFields mutationOutputType outputType
            operationTypeMap config
          = Ok (<[ OperationType_MUTATION := pushField mutationType field ]>
                operationTypeMap)
          /\ fd_directives field = directives_of mutationAction).
Proof.
  cbv zeta. split; [|split; [|split]].
  - intros a. unfold buildRelationshipMutationDirectives.
    destruct (useAuthDirective _ _); [|reflexivity].
    destruct (truthy_string _); reflexivity.
  - intros Hon. unfold buildRelationshipMutationDirectives.
    rewrite Hon. split; reflexivity.
  - intros Hoff a. unfold buildRelationshipMutationDirectives.
    rewrite Hoff. reflexivity.
  - intros a n mot ot otm mt Ha Hm. eexists. split.
    + apply buildRelationshipMutationField_pushes; eassumption.
    + reflexivity.
Qed.
End BuilderProperties.

Section TypeSynthesizerProperties.
Context `{Collaborators}.

(** C4. The property input type [_<outputType>Input] is written only for
    the Add action and only when there are property input values. Its
    fields are the property input values for which no cypher directive is
    found, in their order, each as an input value of the declared name and
    named type and nothing else. Every other entry of the generated-type
    map is kept, and the Remove action (like any action other than Add)
    leaves the map as it is. *)
Theorem property_input_type_synthesis
    (mutationAction outputType : string)
    (propertyInputValues : list PropertyInputValue)
    (generatedTypeMap : gmap string TypeDefinition) :
  let inputTypeName := "_" +:+ outputType +:+ "Input" in
  let written :=
    buildRelationshipMutationPropertyInputType
      mutationAction outputType propertyInputValues generatedTypeMap in
  (mutationAction = RelationshipMutation_CREATE -> propertyInputValues <> [] ->
     written !! inputTypeName
     = Some (InputObjectType
               {| io_name := {| value := inputTypeName |};
                  io_fields :=
                    List.map
                      (fun inputValue =>
                         {| iv_name := {| value := pi_name inputValue |};
                            iv_type := buildNamedType (pi_type inputValue);
                            iv_directives := [] |})
                      (List.filter
                         (fun inputValue =>
                            match getDirective (pi_directives inputValue)
                                               DirectiveDefinition_CYPHER with
                            | Some _ => false
                            | None => true
                            end)
                         propertyInputValues) |})
     /\ forall other, other <> inputTypeName ->
          written !! other = generatedTypeMap !! other)
  /\ (mutationAction <> RelationshipMutation_CREATE -> written = generatedTypeMap)
  /\ (propertyInputValues = [] -> written = generatedTypeMap)
  /\ buildRelationshipMutationPropertyInputType
       RelationshipMutation_DELETE outputType propertyInputValues generatedTypeMap
     = generatedTypeMap.
Proof.
  cbv zeta. unfold buildRelationshipMutationPropertyInputType.
  split; [|split; [|split]].
  - intros -> Hne. rewrite (truthy_length_nonempty _ Hne), String.eqb_refl.
    cbn [andb]. split.
    + rewrite lookup_insert_eq.
      unfold buildInputObjectType, buildInputValue, buildName.
      do 4 f_equal. apply List.filter_ext.
      intros inputValue. now destruct (getDirective _ _).
    + intros other Hother. apply lookup_insert_ne. congruence.
  - intros Hne. apply String.eqb_neq in Hne. rewrite Hne. reflexivity.
  - intros ->. rewrite andb_false_r. reflexivity.
  - reflexivity.
Qed.

Lemma payload_copy_map (propertyOutputFields : list FieldDefinition) :
  Forall2 payload_copy propertyOutputFields
    (List.map
       (fun field =>
          if isCypherField (fd_directives field) then
            {| fd_name := fd_name field;
               fd_type := fd_type field;
               fd_arguments := [];
               fd_directives := fd_directives field |}
          else field)
       propertyOutputFields).
Proof.
  induction propertyOutputFields as [|field fields IH]; constructor; [|exact IH].
  unfold payload_copy. destruct (isCypherField (fd_directives field)) eqn:E;
    cbn; rewrite ?E; repeat split; reflexivity.
Qed.

(** A field that is not a cypher field is its own copy. *)
Lemma payload_copy_not_cypher (source copy : FieldDefinition) :
  payload_copy source copy -> isCypherField (fd_directives source) = false ->
  copy = source.
Proof.
  intros (Hn & Ht & Hd & Ha) E. rewrite E in Ha.
  destruct source, copy; cbn in *; congruence.
Qed.

(** C5. For Add and for Remove the payload type [_<mutationName>Payload]
    is written with the name of its key and a field list that starts with
    the node output fields of the two endpoints. For Add these are followed
    by the property output fields, one for one and in order, where a cypher
    field has its arguments replaced by the empty list and any other field
    is unchanged. For Remove nothing follows them. *)
Theorem payload_type_synthesis
    (mutationName relationshipName fromType toType outputType : string)
    (propertyInputValues : list PropertyInputValue)
    (propertyOutputFields : list FieldDefinition)
    (generatedTypeMap : gmap string TypeDefinition)
    (operationTypeMap : gmap string ObjectTypeDefinition)
    (config : Config) (mutationType : ObjectTypeDefinition) :
  operationTypeMap !! OperationType_MUTATION = Some mutationType ->
  let payloadName := "_" +:+ mutationName +:+ "Payload" in
  let run mutationAction :=
    buildRelationshipMutationAPI
      mutationAction mutationName relationshipName fromType toType
      propertyInputValues propertyOutputFields outputType
      generatedTypeMap operationTypeMap config in
  (exists operationTypeMap' generatedTypeMap' directives copies,
      run RelationshipMutation_CREATE = Ok (operationTypeMap', generatedTypeMap')
      /\ generatedTypeMap' !! payloadName
         = Some (ObjectType
                   {| ot_name := {| value := payloadName |};
                      ot_fields := buildNodeOutputFields fromType toType ++ copies;
                      ot_directives := directives |})
      /\ Forall2 payload_copy propertyOutputFields copies
      /\ (forall source copy, (source, copy) ∈ zip propertyOutputFields copies ->
            isCypherField (fd_directives source) = false -> copy = source))
  /\ (exists operationTypeMap' generatedTypeMap' directives,
        run RelationshipMutation_DELETE = Ok (operationTypeMap', generatedTypeMap')
        /\ generatedTypeMap' !! payloadName
           = Some (ObjectType
                     {| ot_name := {| value := payloadName |};
                        ot_fields := buildNodeOutputFields fromType toType;
                        ot_directives := directives |})).
Proof.
  intros Hm. cbv zeta. unfold buildRelationshipMutationAPI. split.
  - erewrite buildRelationshipMutationField_pushes by (eauto). cbn [bind].
    do 4 eexists. split; [reflexivity|]. split; [|split].
    + unfold buildRelationshipMutationOutputType.
      rewrite String.eqb_refl. cbn [orb].
      rewrite lookup_insert_eq. reflexivity.
    + apply payload_copy_map.
    + intros source copy Hin Hc.
      pose proof (payload_copy_map propertyOutputFields) as Hall.
      eapply payload_copy_not_cypher; [|exact Hc].
      revert Hin. generalize dependent
        (List.map
           (fun field =>
              if isCypherField (fd_directives field) then
                {| fd_name := fd_name field;
                   fd_type := fd_type field;
                   fd_arguments := [];
                   fd_directives := fd_directives field |}
              else field)
           propertyOutputFields).
      intros copies Hall. induction Hall as [|x y xs ys Hxy _ IH]; cbn.
      * intros Hin. apply elem_of_nil in Hin. contradiction.
      * intros Hin. apply elem_of_cons in Hin as [[= -> ->] | Hin]; auto.
  - erewrite buildRelationshipMutationField_pushes by (eauto). cbn [bind].
    do 3 eexists. split; [reflexivity|].
    unfold buildRelationshipMutationOutputType.
    rewrite eqb_CREATE_DELETE, String.eqb_refl. cbn [orb].
    rewrite lookup_insert_eq. reflexivity.
Qed.
End TypeSynthesizerProperties.

(** ** The idempotence guard *)

Section GuardProperties.
Context `{Collaborators}.

Lemma count_named_push (name : string) (fields : list FieldDefinition)
    (field : FieldDefinition) :
  count_named name (fields ++ [field])
  = count_named name fields
    + (if String.eqb (value (fd_name field)) name then 1 else 0).
Proof.
  unfold count_named. rewrite List.filter_app, length_app. cbn [List.filter].
  now destruct (String.eqb _ _).
Qed.

Lemma getFieldDefinition_count (fields : list FieldDefinition) (name : string) :
  truthy_object (getFieldDefinition fields name)
  = negb (Nat.eqb (count_named name fields) 0).
Proof.
  unfold getFieldDefinition, count_named.
  induction fields as [|field fields IH]; [reflexivity|].
  cbn [List.find List.filter].
  destruct (String.eqb (value (fd_name field)) name); [reflexivity | exact IH].
Qed.

Lemma getFieldDefinition_present (fields : list FieldDefinition) (name : string) :
  truthy_object (getFieldDefinition fields name) = true
  <-> exists field, field ∈ fields /\ value (fd_name field) = name.
Proof.
  unfold getFieldDefinition. split.
  - destruct (List.find _ fields) as [field|] eqn:E; [|discriminate]. intros _.
    apply List.find_some in E as [Hin Hn]. exists field. split.
    + now apply list_elem_of_In.
    + now apply String.eqb_eq.
  - intros (field & Hin & Hn).
    destruct (List.find _ fields) as [found|] eqn:E; [reflexivity|].
    apply list_elem_of_In in Hin.
    pose proof (List.find_none _ _ E _ Hin) as Hnone. cbn in Hnone.
    apply String.eqb_neq in Hnone. contradiction.
Qed.
End GuardProperties.

(** ** One action of the orchestrator's loop *)

Section ActionProperties.
Context `{Collaborators}.
Variable d : RelationshipDescriptor.
Variable config : Config.

(** What one pass of the loop body does: nothing when a field of the
    computed name exists, and otherwise one push and the type writes. *)
Lemma augmentAction_step
    (mutationAction mutationName : string)
    (operationTypeMap : gmap string ObjectTypeDefinition)
    (generatedTypeMap : gmap string TypeDefinition)
    (mutationType : ObjectTypeDefinition) :
  mutationAction = RelationshipMutation_CREATE
  \/ mutationAction = RelationshipMutation_DELETE ->
  buildRelationshipMutationName mutationAction (typeName d) (fieldName d)
  = Ok mutationName ->
  operationTypeMap !! OperationType_MUTATION = Some mutationType ->
  augmentAction d config (operationTypeMap, generatedTypeMap) mutationAction
  = Ok (if truthy_object (getFieldDefinition (ot_fields mutationType) mutationName)
        then (operationTypeMap, generatedTypeMap)
        else (<[ OperationType_MUTATION :=
                 pushField mutationType (generatedField d config mutationAction mutationName) ]>
              operationTypeMap,
              generatedTypes d mutationAction mutationName generatedTypeMap)).
Proof.
  intros Ha Hn Hm. unfold augmentAction. rewrite Hn. cbn [bind]. rewrite Hm.
  destruct (truthy_object _); [reflexivity|]. cbn [negb].
  unfold buildRelationshipMutationAPI.
  erewrite buildRelationshipMutationField_pushes by eauto. reflexivity.
Qed.

(** The same, read off the Mutation field list: the Mutation entry stays,
    the other entries are not touched, at most one field is appended, and
    afterwards the computed name is present. *)
Lemma augmentAction_fields
    (mutationAction mutationName : string)
    (operationTypeMap : gmap string ObjectTypeDefinition)
    (generatedTypeMap : gmap string TypeDefinition)
    (mutationType : ObjectTypeDefinition) :
  mutationAction = RelationshipMutation_CREATE
  \/ mutationAction = RelationshipMutation_DELETE ->
  buildRelationshipMutationName mutationAction (typeName d) (fieldName d)
  = Ok mutationName ->
  operationTypeMap !! OperationType_MUTATION = Some mutationType ->
  exists operationTypeMap' generatedTypeMap' mutationType',
    augmentAction d config (operationTypeMap, generatedTypeMap) mutationAction
    = Ok (operationTypeMap', generatedTypeMap')
    /\ operationTypeMap' !! OperationType_MUTATION = Some mutationType'
    /\ (forall kind, kind <> OperationType_MUTATION ->
          operationTypeMap' !! kind = operationTypeMap !! kind)
    /\ ((count_named mutationName (ot_fields mutationType) <> 0
         /\ operationTypeMap' = operationTypeMap
         /\ generatedTypeMap' = generatedTypeMap
         /\ mutationType' = mutationType)
        \/ (count_named mutationName (ot_fields mutationType) = 0
            /\ ot_fields mutationType'
               = ot_fields mutationType ++ [generatedField d config mutationAction mutationName]
            /\ generatedTypeMap'
               = generatedTypes d mutationAction mutationName generatedTypeMap)).
Proof.
  intros Ha Hn Hm. rewrite (augmentAction_step _ _ _ _ _ Ha Hn Hm).
  rewrite getFieldDefinition_count.
  destruct (Nat.eqb_spec (count_named mutationName (ot_fields mutationType)) 0)
    as [E|E]; cbn [negb].
  - do 3 eexists. split; [reflexivity|]. split; [apply lookup_insert_eq|].
    split; [|right; repeat split; assumption].
    intros kind Hk. apply lookup_insert_ne. congruence.
  - exists operationTypeMap, generatedTypeMap, mutationType.
    split; [reflexivity|]. split; [assumption|].
    split; [reflexivity | left; repeat split; assumption].
Qed.
End ActionProperties.

(** ** The orchestrator *)

Section OrchestratorProperties.
Context `{Collaborators}.
Variable d : RelationshipDescriptor.
Variable config : Config.

Lemma augment_skips
    (typeDefinitionMap generatedTypeMap : gmap string TypeDefinition)
    (operationTypeMap : gmap string ObjectTypeDefinition) :
  operationTypeMap !! OperationType_MUTATION = None
  \/ shouldAugmentRelationshipField config "mutation" (fromType d) (toType d) = false ->
  augmentRelationshipMutationAPI
    d typeDefinitionMap generatedTypeMap operationTypeMap config
  = Ok (typeDefinitionMap, generatedTypeMap, operationTypeMap).
Proof.
  intros Hskip. unfold augmentRelationshipMutationAPI. cbv zeta.
  change (toLowerCase OperationType_MUTATION) with "mutation".
  destruct Hskip as [-> | ->]; [reflexivity|].
  rewrite andb_false_r. reflexivity.
Qed.

Lemma augment_loops
    (typeDefinitionMap generatedTypeMap : gmap string TypeDefinition)
    (operationTypeMap : gmap string ObjectTypeDefinition)
    (mutationType : ObjectTypeDefinition) :
  operationTypeMap !! OperationType_MUTATION = Some mutationType ->
  shouldAugmentRelationshipField config "mutation" (fromType d) (toType d) = true ->
  augmentRelationshipMutationAPI
    d typeDefinitionMap generatedTypeMap operationTypeMap config
  = (try! afterAdd :=
       augmentAction d config (operationTypeMap, generatedTypeMap)
         RelationshipMutation_CREATE in
     try! afterRemove :=
       augmentAction d config afterAdd RelationshipMutation_DELETE in
     Ok (typeDefinitionMap, snd afterRemove, fst afterRemove)).
Proof.
  intros Hm Hs. unfold augmentRelationshipMutationAPI. cbv zeta.
  change (toLowerCase OperationType_MUTATION) with "mutation".
  rewrite Hm, Hs. cbn [truthy_object andb].
  unfold RelationshipMutation_values. cbn [forEach].
  destruct (augmentAction d config (operationTypeMap, generatedTypeMap) _)
    as [afterAdd|e]; [|reflexivity]. cbn [bind].
  destruct (augmentAction d config afterAdd _) as [[o g]|e]; reflexivity.
Qed.

Lemma augment_throws
    (typeDefinitionMap generatedTypeMap : gmap string TypeDefinition)
    (operationTypeMap : gmap string ObjectTypeDefinition)
    (mutationType : ObjectTypeDefinition) :
  operationTypeMap !! OperationType_MUTATION = Some mutationType ->
  shouldAugmentRelationshipField config "mutation" (fromType d) (toType d) = true ->
  fieldName d = "" ->
  augmentRelationshipMutationAPI
    d typeDefinitionMap generatedTypeMap operationTypeMap config
  = Throw TypeError.
Proof.
  intros Hm Hs Hf. rewrite (augment_loops _ _ _ _ Hm Hs).
  unfold augmentAction. rewrite Hf. reflexivity.
Qed.

(** With a Mutation type, applicability and a non-empty field name, the
    orchestrator runs the loop body for Add and then for Remove and returns
    what the second run leaves. *)
Lemma augment_runs
    (typeDefinitionMap generatedTypeMap : gmap string TypeDefinition)
    (operationTypeMap : gmap string ObjectTypeDefinition)
    (mutationType : ObjectTypeDefinition) :
  operationTypeMap !! OperationType_MUTATION = Some mutationType ->
  shouldAugmentRelationshipField config "mutation" (fromType d) (toType d) = true ->
  fieldName d <> "" ->
  exists addName removeName afterAdd typesAfterAdd mutationTypeAfterAdd
         afterRemove typesAfterRemove mutationTypeAfterRemove,
    buildRelationshipMutationName
      RelationshipMutation_CREATE (typeName d) (fieldName d) = Ok addName
    /\ buildRelationshipMutationName
         RelationshipMutation_DELETE (typeName d) (fieldName d) = Ok removeName
    /\ augmentAction d config (operationTypeMap, generatedTypeMap)
         RelationshipMutation_CREATE = Ok (afterAdd, typesAfterAdd)
    /\ afterAdd !! OperationType_MUTATION = Some mutationTypeAfterAdd
    /\ augmentAction d config (afterAdd, typesAfterAdd)
         RelationshipMutation_DELETE = Ok (afterRemove, typesAfterRemove)
    /\ afterRemove !! OperationType_MUTATION = Some mutationTypeAfterRemove
    /\ augmentRelationshipMutationAPI
         d typeDefinitionMap generatedTypeMap operationTypeMap config
       = Ok (typeDefinitionMap, typesAfterRemove, afterRemove).
Proof.
  intros Hm Hs Hf.
  destruct (buildRelationshipMutationName_total
              RelationshipMutation_CREATE (typeName d) _ Hf) as [addName Hadd].
  destruct (buildRelationshipMutationName_total
              RelationshipMutation_DELETE (typeName d) _ Hf) as [removeName Hrem].
  destruct (augmentAction_fields d config _ _ _ generatedTypeMap _
              (or_introl eq_refl) Hadd Hm)
    as (o1 & g1 & m1 & Hstep1 & Hm1 & _).
  destruct (augmentAction_fields d config _ _ _ g1 _
              (or_intror eq_refl) Hrem Hm1)
    as (o2 & g2 & m2 & Hstep2 & Hm2 & _).
  exists addName, removeName, o1, g1, m1, o2, g2, m2.
  repeat (split; [assumption|]).
  rewrite (augment_loops _ _ _ _ Hm Hs), Hstep1. cbn [bind].
  rewrite Hstep2. reflexivity.
Qed.

(** C8. Without a Mutation entry in the operation-type map, or when the
    applicability predicate says no, the orchestrator returns the three
    maps as it got them. Whenever it returns, the first component is the
    type-definition map it was given and every entry of the operation-type
    map other than Mutation is as before; and it does return whenever the
    field name is not empty. *)
Theorem orchestrator_frame
    (typeDefinitionMap generatedTypeMap : gmap string TypeDefinition)
    (operationTypeMap : gmap string ObjectTypeDefinition) :
  let run :=
    augmentRelationshipMutationAPI
      d typeDefinitionMap generatedTypeMap operationTypeMap config in
  (operationTypeMap !! OperationType_MUTATION = None
   \/ shouldAugmentRelationshipField config "mutation" (fromType d) (toType d) = false ->
   run = Ok (typeDefinitionMap, generatedTypeMap, operationTypeMap))
  /\ (forall typeDefinitionMap' generatedTypeMap' operationTypeMap',
        run = Ok (typeDefinitionMap', generatedTypeMap', operationTypeMap') ->
        typeDefinitionMap' = typeDefinitionMap
        /\ forall kind, kind <> OperationType_MUTATION ->
             operationTypeMap' !! kind = operationTypeMap !! kind)
  /\ (fieldName d <> "" -> exists triple, run = Ok triple).
Proof.
  cbv zeta. split; [apply augment_skips|].
  destruct (operationTypeMap !! OperationType_MUTATION) as [mutationType|] eqn:Hm;
    [destruct (shouldAugmentRelationshipField config "mutation"
                 (fromType d) (toType d)) eqn:Hs|].
  - split.
    + intros t g o Hrun.
      destruct (String.string_dec (fieldName d) "") as [Hf|Hf].
      { rewrite (augment_throws _ _ _ _ Hm Hs Hf) in Hrun. discriminate. }
      destruct (buildRelationshipMutationName_total
                  RelationshipMutation_CREATE (typeName d) _ Hf) as [addName Hadd].
      destruct (buildRelationshipMutationName_total
                  RelationshipMutation_DELETE (typeName d) _ Hf) as [removeName Hrem].
      destruct (augmentAction_fields d config _ _ _ generatedTypeMap _
                  (or_introl eq_refl) Hadd Hm)
        as (o1 & g1 & m1 & Hstep1 & Hm1 & Hframe1 & _).
      destruct (augmentAction_fields d config _ _ _ g1 _
                  (or_intror eq_refl) Hrem Hm1)
        as (o2 & g2 & m2 & Hstep2 & Hm2 & Hframe2 & _).
      rewrite (augment_loops _ _ _ _ Hm Hs), Hstep1 in Hrun. cbn [bind] in Hrun.
      rewrite Hstep2 in Hrun. cbn in Hrun. injection Hrun as <- <- <-.
      split; [reflexivity|]. intros kind Hk.
      rewrite (Hframe2 kind Hk). apply (Hframe1 kind Hk).
    + intros Hf.
      destruct (augment_runs typeDefinitionMap generatedTypeMap _ _ Hm Hs Hf)
        as (? & ? & ? & ? & ? & ? & g2 & ? & _ & _ & _ & _ & _ & _ & Hrun).
      eexists. exact Hrun.
  - rewrite (augment_skips typeDefinitionMap generatedTypeMap operationTypeMap)
      by (right; exact Hs).
    split; [|eexists; reflexivity].
    intros t g o [= <- <- <-]. split; reflexivity.
  - rewrite (augment_skips typeDefinitionMap generatedTypeMap operationTypeMap)
      by (left; exact Hm).
    split; [|eexists; reflexivity].
    intros t g o [= <- <- <-]. split; reflexivity.
Qed.

(** C9. With a Mutation type present and the applicability predicate true,
    a descriptor whose field name is the empty string makes the pass fail
    where the mutation name is built: the name builder throws for every
    action, and the orchestrator ends with that same exception. *)
Theorem empty_field_name_throws
    (typeDefinitionMap generatedTypeMap : gmap string TypeDefinition)
    (operationTypeMap : gmap string ObjectTypeDefinition)
    (mutationType : ObjectTypeDefinition) :
  fieldName d = "" ->
  operationTypeMap !! OperationType_MUTATION = Some mutationType ->
  shouldAugmentRelationshipField config "mutation" (fromType d) (toType d) = true ->
  (forall mutationAction,
      buildRelationshipMutationName mutationAction (typeName d) (fieldName d)
      = Throw TypeError)
  /\ augmentRelationshipMutationAPI
       d typeDefinitionMap generatedTypeMap operationTypeMap config
     = Throw TypeError.
Proof.
  intros Hf Hm Hs. split.
  - intros mutationAction. rewrite Hf. reflexivity.
  - eapply augment_throws; eassumption.
Qed.
End OrchestratorProperties.

(** ** Counting the generated fields *)

Section CountProperties.
Context `{Collaborators}.
Variable d : RelationshipDescriptor.
Variable config : Config.

(** After the loop body for an action, its name is carried by some field;
    by exactly one if by at most one before; the count of every other name
    is as before; and if the name was there already nothing changes. *)
Lemma augmentAction_counts
    (mutationAction mutationName : string)
    (operationTypeMap : gmap string ObjectTypeDefinition)
    (generatedTypeMap : gmap string TypeDefinition)
    (mutationType : ObjectTypeDefinition) :
  mutationAction = RelationshipMutation_CREATE
  \/ mutationAction = RelationshipMutation_DELETE ->
  buildRelationshipMutationName mutationAction (typeName d) (fieldName d)
  = Ok mutationName ->
  operationTypeMap !! OperationType_MUTATION = Some mutationType ->
  exists operationTypeMap' generatedTypeMap' mutationType',
    augmentAction d config (operationTypeMap, generatedTypeMap) mutationAction
    = Ok (operationTypeMap', generatedTypeMap')
    /\ operationTypeMap' !! OperationType_MUTATION = Some mutationType'
    /\ count_named mutationName (ot_fields mutationType') <> 0
    /\ (count_named mutationName (ot_fields mutationType) <= 1 ->
        count_named mutationName (ot_fields mutationType') = 1)
    /\ (forall other, other <> mutationName ->
          count_named other (ot_fields mutationType')
          = count_named other (ot_fields mutationType))
    /\ (count_named mutationName (ot_fields mutationType) <> 0 ->
        operationTypeMap' = operationTypeMap /\ generatedTypeMap' = generatedTypeMap).
Proof.
  intros Ha Hn Hm.
  destruct (augmentAction_fields d config _ _ _ generatedTypeMap _ Ha Hn Hm)
    as (o' & g' & m' & Hstep & Hm' & _ & Hcases).
  exists o', g', m'. split; [exact Hstep|]. split; [exact Hm'|].
  destruct Hcases as [(Hc & -> & -> & ->) | (Hc & Hfields & Hg)].
  - split; [exact Hc|]. split; [lia|]. split; [reflexivity|]. now split.
  - rewrite Hfields. split; [|split; [|split]].
    + rewrite count_named_push. cbn. rewrite String.eqb_refl. lia.
    + intros _. rewrite count_named_push. cbn. rewrite String.eqb_refl. lia.
    + intros other Hother. rewrite count_named_push. cbn.
      apply not_eq_sym, String.eqb_neq in Hother. rewrite Hother. lia.
    + intros Hc'. contradiction.
Qed.

(** C1. A second call of the orchestrator, with the same descriptor and
    the maps the first call returned, returns those maps again: no field
    and no type is added. Where the first call ran the loop (Mutation type
    present, applicability true) on a Mutation field list holding each of
    the two names at most once, the field list afterwards holds exactly one
    field of the Add name and exactly one of the Remove name. *)
Theorem orchestrator_idempotent
    (typeDefinitionMap generatedTypeMap : gmap string TypeDefinition)
    (operationTypeMap : gmap string ObjectTypeDefinition)
    (typeDefinitionMap' generatedTypeMap' : gmap string TypeDefinition)
    (operationTypeMap' : gmap string ObjectTypeDefinition) :
  augmentRelationshipMutationAPI
    d typeDefinitionMap generatedTypeMap operationTypeMap config
  = Ok (typeDefinitionMap', generatedTypeMap', operationTypeMap') ->
  augmentRelationshipMutationAPI
    d typeDefinitionMap' generatedTypeMap' operationTypeMap' config
  = Ok (typeDefinitionMap', generatedTypeMap', operationTypeMap')
  /\ (forall mutationType addName removeName,
        operationTypeMap !! OperationType_MUTATION = Some mutationType ->
        shouldAugmentRelationshipField config "mutation" (fromType d) (toType d)
        = true ->
        buildRelationshipMutationName
          RelationshipMutation_CREATE (typeName d) (fieldName d) = Ok addName ->
        buildRelationshipMutationName
          RelationshipMutation_DELETE (typeName d) (fieldName d) = Ok removeName ->
        count_named addName (ot_fields mutationType) <= 1 ->
        count_named removeName (ot_fields mutationType) <= 1 ->
        count_named addName (mutationFields operationTypeMap') = 1
        /\ count_named removeName (mutationFields operationTypeMap') = 1).
Proof.
  intros Hrun.
  destruct (operationTypeMap !! OperationType_MUTATION) as [mutationType|] eqn:Hm;
    [destruct (shouldAugmentRelationshipField config "mutation"
                 (fromType d) (toType d)) eqn:Hs|].
  - destruct (String.string_dec (fieldName d) "") as [Hf|Hf].
    { rewrite (augment_throws _ _ _ _ _ _ Hm Hs Hf) in Hrun. discriminate. }
    destruct (buildRelationshipMutationName_total
                RelationshipMutation_CREATE (typeName d) _ Hf) as [addName Hadd].
    destruct (buildRelationshipMutationName_total
                RelationshipMutation_DELETE (typeName d) _ Hf) as [removeName Hrem].
    pose proof (add_name_not_remove_name _ _ _ _ Hadd Hrem) as Hdiff.
    destruct (augmentAction_counts _ _ _ generatedTypeMap _
                (or_introl eq_refl) Hadd Hm)
      as (o1 & g1 & m1 & Hstep1 & Hm1 & Hin1 & Hone1 & Hother1 & _).
    destruct (augmentAction_counts _ _ _ g1 _ (or_intror eq_refl) Hrem Hm1)
      as (o2 & g2 & m2 & Hstep2 & Hm2 & Hin2 & Hone2 & Hother2 & _).
    rewrite (augment_loops _ _ _ _ _ _ Hm Hs), Hstep1 in Hrun. cbn [bind] in Hrun.
    rewrite Hstep2 in Hrun. cbn in Hrun. injection Hrun as <- <- <-.
    split.
    + destruct (augmentAction_counts _ _ _ g2 _ (or_introl eq_refl) Hadd Hm2)
        as (o3 & g3 & m3 & Hstep3 & _ & _ & _ & _ & Hsame3).
      destruct Hsame3 as [-> ->].
      { rewrite (Hother2 addName Hdiff). exact Hin1. }
      destruct (augmentAction_counts _ _ _ g2 _ (or_intror eq_refl) Hrem Hm2)
        as (o4 & g4 & m4 & Hstep4 & _ & _ & _ & _ & Hsame4).
      destruct (Hsame4 Hin2) as [-> ->].
      rewrite (augment_loops _ _ _ _ _ _ Hm2 Hs), Hstep3. cbn [bind].
      rewrite Hstep4. reflexivity.
    + intros mt addName' removeName' [= <-] _ Hadd' Hrem' Hle1 Hle2.
      rewrite Hadd in Hadd'. rewrite Hrem in Hrem'.
      injection Hadd' as <-. injection Hrem' as <-.
      unfold mutationFields. rewrite Hm2. split.
      * rewrite (Hother2 addName Hdiff). apply Hone1, Hle1.
      * apply Hone2. rewrite (Hother1 removeName (not_eq_sym Hdiff)). exact Hle2.
  - rewrite (augment_skips d config typeDefinitionMap generatedTypeMap operationTypeMap)
      in Hrun by (right; exact Hs).
    injection Hrun as <- <- <-. split.
    + apply augment_skips. right. exact Hs.
    + intros mt a r _ Hs'. congruence.
  - rewrite (augment_skips d config typeDefinitionMap generatedTypeMap operationTypeMap)
      in Hrun by (left; exact Hm).
    injection Hrun as <- <- <-. split.
    + apply augment_skips. left. exact Hm.
    + intros mt a r Hm'. congruence.
Qed.
End CountProperties.

(** ** The generated types of a whole run *)

Section GeneratedTypeProperties.
Context `{Collaborators}.
Variable d : RelationshipDescriptor.
Variable config : Config.

(** The object types the synthesizers write carry the relation directive
    of the descriptor and no other. *)
Lemma generatedTypes_object_types
    (mutationAction mutationName : string)
    (generatedTypeMap : gmap string TypeDefinition)
    (name : string) (type : ObjectTypeDefinition) :
  generatedTypes d mutationAction mutationName generatedTypeMap !! name
  = Some (ObjectType type) ->
  generatedTypes d mutationAction mutationName generatedTypeMap !! name
  = generatedTypeMap !! name
  \/ ot_directives type
     = [buildRelationDirective (relationshipName d) (fromType d) (toType d)].
Proof.
  unfold generatedTypes, buildRelationshipMutationOutputType,
    buildRelationshipMutationPropertyInputType.
  destruct (String.eqb mutationAction RelationshipMutation_CREATE
            || String.eqb mutationAction RelationshipMutation_DELETE).
  - destruct (decide ("_" +:+ mutationName +:+ "Payload" = name)) as [<-|Hp].
    + rewrite lookup_insert_eq. intros [= <-]. right. reflexivity.
    + rewrite lookup_insert_ne by exact Hp.
      destruct (String.eqb mutationAction RelationshipMutation_CREATE
                && truthy_length (length (propertyInputValues d)));
        [|left; reflexivity].
      destruct (decide ("_" +:+ outputType d +:+ "Input" = name)) as [<-|Hi].
      * rewrite lookup_insert_eq. discriminate.
      * rewrite lookup_insert_ne by exact Hi. left. reflexivity.
  - destruct (String.eqb mutationAction RelationshipMutation_CREATE
              && truthy_length (length (propertyInputValues d)));
      [|left; reflexivity].
    destruct (decide ("_" +:+ outputType d +:+ "Input" = name)) as [<-|Hi].
    + rewrite lookup_insert_eq. discriminate.
    + rewrite lookup_insert_ne by exact Hi. left. reflexivity.
Qed.

(** Without property input values the synthesizers leave the entry of the
    property input type alone. *)
Lemma generatedTypes_input_type_untouched
    (mutationAction mutationName : string)
    (generatedTypeMap : gmap string TypeDefinition) :
  propertyInputValues d = [] ->
  generatedTypes d mutationAction mutationName generatedTypeMap
    !! ("_" +:+ outputType d +:+ "Input")
  = generatedTypeMap !! ("_" +:+ outputType d +:+ "Input").
Proof.
  intros Hnone.
  unfold generatedTypes, buildRelationshipMutationOutputType,
    buildRelationshipMutationPropertyInputType.
  rewrite Hnone, andb_false_r.
  destruct (String.eqb mutationAction RelationshipMutation_CREATE
            || String.eqb mutationAction RelationshipMutation_DELETE);
    [|reflexivity].
  apply lookup_insert_ne, payload_name_not_input_name.
Qed.

(** C6. A payload type is written with exactly one directive, the relation
    directive built from the relationship name, the from type and the to
    type of the descriptor: this holds for the type the payload synthesizer
    writes for Add and for Remove, and for every object type that a run of
    the orchestrator adds to or changes in the generated-type map. *)
Theorem payload_directive_binding
    (typeDefinitionMap generatedTypeMap : gmap string TypeDefinition)
    (operationTypeMap : gmap string ObjectTypeDefinition) :
  let relation :=
    buildRelationDirective (relationshipName d) (fromType d) (toType d) in
  (forall mutationAction mutationOutputType types,
      mutationAction = RelationshipMutation_CREATE
      \/ mutationAction = RelationshipMutation_DELETE ->
      exists payload,
        buildRelationshipMutationOutputType
          mutationAction mutationOutputType (propertyOutputFields d)
          (relationshipName d) (fromType d) (toType d) types
        !! mutationOutputType = Some (ObjectType payload)
        /\ ot_directives payload = [relation])
  /\ (forall typeDefinitionMap' generatedTypeMap' operationTypeMap',
        augmentRelationshipMutationAPI
          d typeDefinitionMap generatedTypeMap operationTypeMap config
        = Ok (typeDefinitionMap', generatedTypeMap', operationTypeMap') ->
        forall name type,
          generatedTypeMap' !! name = Some (ObjectType type) ->
          generatedTypeMap' !! name <> generatedTypeMap !! name ->
          ot_directives type = [relation]).
Proof.
  cbv zeta. split.
  - intros a mot types Ha. unfold buildRelationshipMutationOutputType.
    rewrite (is_mutation_action _ Ha), lookup_insert_eq.
    eexists. split; reflexivity.
  - intros t' g' o' Hrun name type Hlook Hnew.
    destruct (operationTypeMap !! OperationType_MUTATION) as [mutationType|] eqn:Hm;
      [destruct (shouldAugmentRelationshipField config "mutation"
                   (fromType d) (toType d)) eqn:Hs|].
    + destruct (String.string_dec (fieldName d) "") as [Hf|Hf].
      { rewrite (augment_throws _ _ _ _ _ _ Hm Hs Hf) in Hrun. discriminate. }
      destruct (buildRelationshipMutationName_total
                  RelationshipMutation_CREATE (typeName d) _ Hf) as [addName Hadd].
      destruct (buildRelationshipMutationName_total
                  RelationshipMutation_DELETE (typeName d) _ Hf) as [removeName Hrem].
      destruct (augmentAction_fields d config _ _ _ generatedTypeMap _
                  (or_introl eq_refl) Hadd Hm)
        as (o1 & g1 & m1 & Hstep1 & Hm1 & _ & Hcase1).
      destruct (augmentAction_fields d config _ _ _ g1 _
                  (or_intror eq_refl) Hrem Hm1)
        as (o2 & g2 & m2 & Hstep2 & Hm2 & _ & Hcase2).
      rewrite (augment_loops _ _ _ _ _ _ Hm Hs), Hstep1 in Hrun. cbn [bind] in Hrun.
      rewrite Hstep2 in Hrun. cbn in Hrun. injection Hrun as <- <- <-.
      assert (g2 !! name = g1 !! name
              \/ ot_directives type
                 = [buildRelationDirective
                      (relationshipName d) (fromType d) (toType d)]) as [E2|Hd].
      { destruct Hcase2 as [(_ & _ & -> & _) | (_ & _ & ->)]; [now left|].
        now apply generatedTypes_object_types. }
      2: exact Hd.
      rewrite E2 in Hlook, Hnew.
      destruct Hcase1 as [(_ & _ & -> & _) | (_ & _ & ->)]; [congruence|].
      destruct (generatedTypes_object_types _ _ _ _ _ Hlook) as [E1|Hd];
        [congruence | exact Hd].
    + rewrite (augment_skips d config typeDefinitionMap generatedTypeMap
                 operationTypeMap) in Hrun by (right; exact Hs).
      injection Hrun as <- <- <-. congruence.
    + rewrite (augment_skips d config typeDefinitionMap generatedTypeMap
                 operationTypeMap) in Hrun by (left; exact Hm).
      injection Hrun as <- <- <-. congruence.
Qed.

(** C10. For a descriptor with property output fields but no property input
    values, the Add field takes a third argument [data] typed with the
    non-null [_<outputType>Input], and no run of the orchestrator changes
    the entry [_<outputType>Input] of the generated-type map. When the loop
    runs and no field has the Add name yet, the returned Mutation field
    list holds the Add field with these three arguments while that entry
    is what it was before, absent if it was absent. *)
Theorem data_argument_without_input_type
    (typeDefinitionMap generatedTypeMap : gmap string TypeDefinition)
    (operationTypeMap : gmap string ObjectTypeDefinition) :
  propertyOutputFields d <> [] ->
  propertyInputValues d = [] ->
  let inputTypeName := "_" +:+ outputType d +:+ "Input" in
  let arguments :=
    [ buildInputValue (buildName "from") (nonNullInput (fromType d));
      buildInputValue (buildName "to") (nonNullInput (toType d));
      buildInputValue (buildName "data") (nonNullInput (outputType d)) ] in
  let run :=
    augmentRelationshipMutationAPI
      d typeDefinitionMap generatedTypeMap operationTypeMap config in
  buildRelationshipMutationArguments
    RelationshipMutation_CREATE (fromType d) (toType d)
    (propertyOutputFields d) (outputType d) = arguments
  /\ (forall typeDefinitionMap' generatedTypeMap' operationTypeMap',
        run = Ok (typeDefinitionMap', generatedTypeMap', operationTypeMap') ->
        generatedTypeMap' !! inputTypeName = generatedTypeMap !! inputTypeName)
  /\ (forall mutationType addName,
        operationTypeMap !! OperationType_MUTATION = Some mutationType ->
        shouldAugmentRelationshipField config "mutation" (fromType d) (toType d)
        = true ->
        buildRelationshipMutationName
          RelationshipMutation_CREATE (typeName d) (fieldName d) = Ok addName ->
        count_named addName (ot_fields mutationType) = 0 ->
        exists typeDefinitionMap' generatedTypeMap' operationTypeMap' field,
          run = Ok (typeDefinitionMap', generatedTypeMap', operationTypeMap')
          /\ field ∈ mutationFields operationTypeMap'
          /\ value (fd_name field) = addName
          /\ fd_arguments field = arguments
          /\ (generatedTypeMap !! inputTypeName = None ->
              generatedTypeMap' !! inputTypeName = None)).
Proof.
  intros Hout Hin. cbv zeta.
  assert (Hargs :
    buildRelationshipMutationArguments
      RelationshipMutation_CREATE (fromType d) (toType d)
      (propertyOutputFields d) (outputType d)
    = [ buildInputValue (buildName "from") (nonNullInput (fromType d));
        buildInputValue (buildName "to") (nonNullInput (toType d));
        buildInputValue (buildName "data") (nonNullInput (outputType d)) ]).
  { unfold buildRelationshipMutationArguments.
    rewrite (truthy_length_nonempty _ Hout). reflexivity. }
  assert (Hkeep : forall t' g' o',
    augmentRelationshipMutationAPI
      d typeDefinitionMap generatedTypeMap operationTypeMap config
    = Ok (t', g', o') ->
    g' !! ("_" +:+ outputType d +:+ "Input")
    = generatedTypeMap !! ("_" +:+ outputType d +:+ "Input")).
  { intros t' g' o' Hrun.
    destruct (operationTypeMap !! OperationType_MUTATION) as [mutationType|] eqn:Hm;
      [destruct (shouldAugmentRelationshipField config "mutation"
                   (fromType d) (toType d)) eqn:Hs|].
    - destruct (String.string_dec (fieldName d) "") as [Hf|Hf].
      { rewrite (augment_throws _ _ _ _ _ _ Hm Hs Hf) in Hrun. discriminate. }
      destruct (buildRelationshipMutationName_total
                  RelationshipMutation_CREATE (typeName d) _ Hf) as [addName Hadd].
      destruct (buildRelationshipMutationName_total
                  RelationshipMutation_DELETE (typeName d) _ Hf) as [removeName Hrem].
      destruct (augmentAction_fields d config _ _ _ generatedTypeMap _
                  (or_introl eq_refl) Hadd Hm)
        as (o1 & g1 & m1 & Hstep1 & Hm1 & _ & Hcase1).
      destruct (augmentAction_fields d config _ _ _ g1 _
                  (or_intror eq_refl) Hrem Hm1)
        as (o2 & g2 & m2 & Hstep2 & Hm2 & _ & Hcase2).
      rewrite (augment_loops _ _ _ _ _ _ Hm Hs), Hstep1 in Hrun. cbn [bind] in Hrun.
      rewrite Hstep2 in Hrun. cbn in Hrun. injection Hrun as <- <- <-.
      transitivity (g1 !! ("_" +:+ outputType d +:+ "Input")).
      + destruct Hcase2 as [(_ & _ & -> & _) | (_ & _ & ->)]; [reflexivity|].
        now apply generatedTypes_input_type_untouched.
      + destruct Hcase1 as [(_ & _ & -> & _) | (_ & _ & ->)]; [reflexivity|].
        now apply generatedTypes_input_type_untouched.
    - rewrite (augment_skips d config typeDefinitionMap generatedTypeMap
                 operationTypeMap) in Hrun by (right; exact Hs).
      now injection Hrun as <- <- <-.
    - rewrite (augment_skips d config typeDefinitionMap generatedTypeMap
                 operationTypeMap) in Hrun by (left; exact Hm).
      now injection Hrun as <- <- <-. }
  split; [exact Hargs|]. split; [exact Hkeep|].
  intros mutationType addName Hm Hs Hadd Hfresh.
  assert (Hf : fieldName d <> "").
  { intros Hf. rewrite Hf in Hadd. discriminate. }
  destruct (buildRelationshipMutationName_total
              RelationshipMutation_DELETE (typeName d) _ Hf) as [removeName Hrem].
  destruct (augmentAction_fields d config _ _ _ generatedTypeMap _
              (or_introl eq_refl) Hadd Hm)
    as (o1 & g1 & m1 & Hstep1 & Hm1 & _ & Hcase1).
  destruct (augmentAction_fields d config _ _ _ g1 _
              (or_intror eq_refl) Hrem Hm1)
    as (o2 & g2 & m2 & Hstep2 & Hm2 & _ & Hcase2).
  assert (Hrun :
    augmentRelationshipMutationAPI
      d typeDefinitionMap generatedTypeMap operationTypeMap config
    = Ok (typeDefinitionMap, g2, o2)).
  { rewrite (augment_loops _ _ _ _ _ _ Hm Hs), Hstep1. cbn [bind].
    rewrite Hstep2. reflexivity. }
  exists typeDefinitionMap, g2, o2,
    (generatedField d config RelationshipMutation_CREATE addName).
  split; [exact Hrun|]. split; [|split; [reflexivity|split]].
  - unfold mutationFields. rewrite Hm2.
    destruct Hcase1 as [(Hc & _) | (_ & Hfields1 & _)]; [contradiction|].
    assert (Hin1 : generatedField d config RelationshipMutation_CREATE addName
                   ∈ ot_fields m1).
    { rewrite Hfields1. apply elem_of_app. right. apply list_elem_of_singleton.
      reflexivity. }
    destruct Hcase2 as [(_ & _ & _ & ->) | (_ & -> & _)]; [exact Hin1|].
    apply elem_of_app. left. exact Hin1.
  - exact Hargs.
  - intros Habsent. rewrite (Hkeep _ _ _ Hrun). exact Habsent.
Qed.
End GeneratedTypeProperties.

(** * The pass on the sample relationship *)

Lemma mutation_name_witness :
  buildRelationshipMutationName RelationshipMutation_CREATE "Person" "knows"
  = Ok "AddPersonKnows"
  /\ buildRelationshipMutationName RelationshipMutation_DELETE "Person" "knows"
     = Ok "RemovePersonKnows".
Proof.
  exact (proj2 (@mutation_name_is_action_type_capitalized_field sampleCarriers)
           sampleKnows eq_refl eq_refl).
Defined.

Lemma mutation_field_arguments_witness :
  @buildRelationshipMutationArguments sampleCarriers sampleCollaborators
    RelationshipMutation_CREATE "Person" "Person" [sampleSince; sampleScore] "Knows"
  = [ buildInputValue (buildName "from") (sampleType "_PersonInput" true);
      buildInputValue (buildName "to") (sampleType "_PersonInput" true);
      buildInputValue (buildName "data") (sampleType "_KnowsInput" true) ].
Proof.
  apply (proj1 (proj2 (@mutation_field_arguments
                         sampleCarriers sampleCollaborators sampleKnows))).
  discriminate.
Defined.

Lemma mutation_field_directives_witness :
  @buildRelationshipMutationDirectives sampleCarriers sampleCollaborators
    RelationshipMutation_CREATE "KNOWS" "Person" "Person" [] sampleConfig
  = [ sampleDirective "MutationMeta" ["KNOWS"; "Person"; "Person"];
      sampleDirective "hasScope" ["Person: Create"; "Person: Create"] ]
  /\ @buildRelationshipMutationDirectives sampleCarriers sampleCollaborators
       RelationshipMutation_DELETE "KNOWS" "Person" "Person" [] sampleConfig
     = [ sampleDirective "MutationMeta" ["KNOWS"; "Person"; "Person"];
         sampleDirective "hasScope" ["Person: Delete"; "Person: Delete"] ].
Proof.
  apply (proj1 (proj2 (@mutation_field_directives
                         sampleCarriers sampleCollaborators
                         "KNOWS" "Person" "Person" [] sampleConfig))).
  reflexivity.
Defined.

Lemma property_input_type_synthesis_witness :
  @buildRelationshipMutationPropertyInputType sampleCarriers sampleCollaborators
    RelationshipMutation_CREATE "Knows" sampleInputs ∅ !! "_KnowsInput"
  = Some (InputObjectType
            {| io_name := {| value := "_KnowsInput" |};
               io_fields :=
                 [ {| iv_name := {| value := "since" |};
                      iv_type := sampleType "Int" false;
                      iv_directives := [] |} ] |}).
Proof.
  apply (proj1 (@property_input_type_synthesis
                  sampleCarriers sampleCollaborators
                  RelationshipMutation_CREATE "Knows" sampleInputs ∅)).
  - reflexivity.
  - discriminate.
Defined.

Lemma payload_type_synthesis_witness :
  exists operationTypeMap' generatedTypeMap' directives,
    @buildRelationshipMutationAPI sampleCarriers sampleCollaborators
      RelationshipMutation_DELETE "RemovePersonKnows" "KNOWS" "Person" "Person"
      sampleInputs [sampleSince; sampleScore] "Knows" ∅ sampleOperationTypeMap
      sampleConfig
    = Ok (operationTypeMap', generatedTypeMap')
    /\ generatedTypeMap' !! "_RemovePersonKnowsPayload"
       = Some (ObjectType
                 {| ot_name := {| value := "_RemovePersonKnowsPayload" |};
                    ot_fields :=
                      [ buildField (buildName "from") (sampleType "Person" false) [] [];
                        buildField (buildName "to") (sampleType "Person" false) [] [] ];
                    ot_directives := directives |}).
Proof.
  apply (proj2 (@payload_type_synthesis
                  sampleCarriers sampleCollaborators
                  "RemovePersonKnows" "KNOWS" "Person" "Person" "Knows"
                  sampleInputs [sampleSince; sampleScore] ∅ sampleOperationTypeMap
                  sampleConfig
                  {| ot_name := buildName "Mutation"; ot_fields := [];
                     ot_directives := [] |}
                  eq_refl)).
Defined.

Lemma empty_field_name_throws_witness :
  sampleRun sampleUnnamed ∅ ∅ sampleOperationTypeMap = Throw TypeError.
Proof.
  apply (proj2 (@empty_field_name_throws
                  sampleCarriers sampleCollaborators sampleUnnamed sampleConfig
                  ∅ ∅ sampleOperationTypeMap
                  {| ot_name := buildName "Mutation"; ot_fields := [];
                     ot_directives := [] |}
                  eq_refl eq_refl eq_refl)).
Defined.

Lemma orchestrator_frame_witness :
  sampleRun sampleKnows ∅ ∅ ∅ = Ok (∅, ∅, ∅).
Proof.
  apply (proj1 (@orchestrator_frame
                  sampleCarriers sampleCollaborators sampleKnows sampleConfig
                  ∅ ∅ ∅)).
  left. reflexivity.
Defined.

Lemma orchestrator_idempotent_witness :
  match sampleRun sampleKnows ∅ ∅ sampleOperationTypeMap with
  | Ok (typeDefinitionMap, generatedTypeMap, operationTypeMap) =>
      sampleRun sampleKnows typeDefinitionMap generatedTypeMap operationTypeMap
      = Ok (typeDefinitionMap, generatedTypeMap, operationTypeMap)
      /\ count_named "AddPersonKnows" (mutationFields operationTypeMap) = 1
      /\ count_named "RemovePersonKnows" (mutationFields operationTypeMap) = 1
  | Throw _ => False
  end.
Proof.
  destruct (sampleRun sampleKnows ∅ ∅ sampleOperationTypeMap)
    as [[[t g] o]|e] eqn:E.
  - destruct (@orchestrator_idempotent
                sampleCarriers sampleCollaborators sampleKnows sampleConfig
                ∅ ∅ sampleOperationTypeMap t g o E) as [Hsame Hcount].
    split; [exact Hsame|].
    apply (Hcount {| ot_name := buildName "Mutation"; ot_fields := [];
                     ot_directives := [] |}
                  "AddPersonKnows" "RemovePersonKnows");
      [reflexivity | reflexivity | reflexivity | reflexivity | cbn; lia | cbn; lia].
  - vm_compute in E. discriminate E.
Defined.

Lemma payload_directive_binding_witness :
  match sampleRun sampleKnows ∅ ∅ sampleOperationTypeMap with
  | Ok (_, generatedTypeMap, _) =>
      match generatedTypeMap !! "_AddPersonKnowsPayload" with
      | Some (ObjectType type) =>
          ot_directives type
          = [sampleDirective "relation" ["KNOWS"; "Person"; "Person"]]
      | _ => False
      end
  | Throw _ => False
  end.
Proof.
  destruct (sampleRun sampleKnows ∅ ∅ sampleOperationTypeMap)
    as [[[t g] o]|e] eqn:E; [|vm_compute in E; discriminate E].
  destruct (g !! "_AddPersonKnowsPayload") as [[type|input]|] eqn:L.
  - apply (proj2 (@payload_directive_binding
                    sampleCarriers sampleCollaborators sampleKnows sampleConfig
                    ∅ ∅ sampleOperationTypeMap)
             t g o E "_AddPersonKnowsPayload" type L).
    rewrite L, lookup_empty. discriminate.
  - vm_compute in E. injection E as <- <- <-. vm_compute in L. discriminate L.
  - vm_compute in E. injection E as <- <- <-. vm_compute in L. discriminate L.
Defined.

Lemma data_argument_without_input_type_witness :
  exists typeDefinitionMap' generatedTypeMap' operationTypeMap' field,
    sampleRun sampleKnowsOutputsOnly ∅ ∅ sampleOperationTypeMap
    = Ok (typeDefinitionMap', generatedTypeMap', operationTypeMap')
    /\ field ∈ mutationFields operationTypeMap'
    /\ value (fd_name field) = "AddPersonKnows"
    /\ fd_arguments field
       = [ buildInputValue (buildName "from") (sampleType "_PersonInput" true);
           buildInputValue (buildName "to") (sampleType "_PersonInput" true);
           buildInputValue (buildName "data") (sampleType "_KnowsInput" true) ]
    /\ generatedTypeMap' !! "_KnowsInput" = None.
Proof.
  assert (Hout : propertyOutputFields sampleKnowsOutputsOnly <> [])
    by discriminate.
  destruct (proj2 (proj2 (@data_argument_without_input_type
                            sampleCarriers sampleCollaborators
                            sampleKnowsOutputsOnly sampleConfig
                            ∅ ∅ sampleOperationTypeMap Hout eq_refl))
              {| ot_name := buildName "Mutation"; ot_fields := [];
                 ot_directives := [] |}
              "AddPersonKnows" eq_refl eq_refl eq_refl eq_refl)
    as (t & g & o & field & Hrun & Hin & Hname & Hargs & Habsent).
  exists t, g, o, field.
  split; [exact Hrun|]. split; [exact Hin|]. split; [exact Hname|].
  split; [exact Hargs|]. apply Habsent. apply lookup_empty.
Defined.

(** * Further properties of the pass *)

(** ** Case and boundaries in generated names *)

Lemma ascii_toUpperCase_idempotent (c : ascii) :
  ascii_toUpperCase (ascii_toUpperCase c) = ascii_toUpperCase c.
Proof.
  destruct c as [b0 b1 b2 b3 b4 b5 b6 b7].
  destruct b0, b1, b2, b3, b4, b5, b6, b7; reflexivity.
Qed.

Lemma append_String_assoc (s : string) (c : ascii) (t : string) :
  (s +:+ String c "") +:+ t = s +:+ String c t.
Proof.
  induction s as [|x s IH]; [reflexivity|].
  change (String x ((s +:+ String c "") +:+ t) = String x (s +:+ String c t)).
  now rewrite IH.
Qed.

Lemma payload_keys_differ (t f addName removeName : string) :
  buildRelationshipMutationName RelationshipMutation_CREATE t f = Ok addName ->
  buildRelationshipMutationName RelationshipMutation_DELETE t f = Ok removeName ->
  "_" +:+ addName +:+ "Payload" <> "_" +:+ removeName +:+ "Payload".
Proof.
  destruct f as [|c rest]; [discriminate|].
  rewrite !buildRelationshipMutationName_String.
  intros [= <-] [= <-]. discriminate.
Qed.

(** X4. An Add name never equals a Remove name, whatever the two type names
    and field names are: a field generated for adding a relationship never
    stands in the way of one generated for removing a relationship. *)
Theorem add_names_and_remove_names_are_disjoint
    (typeName1 fieldName1 typeName2 fieldName2 addName removeName : string) :
  buildRelationshipMutationName RelationshipMutation_CREATE typeName1 fieldName1
  = Ok addName ->
  buildRelationshipMutationName RelationshipMutation_DELETE typeName2 fieldName2
  = Ok removeName ->
  addName <> removeName.
Proof.
  destruct fieldName1 as [|c1 rest1]; [discriminate|].
  destruct fieldName2 as [|c2 rest2]; [discriminate|].
  rewrite !buildRelationshipMutationName_String.
  intros [= <-] [= <-]. discriminate.
Qed.

(** X5. The generated name does not tell field names apart that differ only
    in the case of their first letter, nor does it keep the boundary between
    the type name and the field name: moving the capitalized first letter of
    the field name to the end of the type name gives the same name when the
    next letter is not lower case. *)
Theorem mutation_names_collide
    (mutationAction typeName : string) (c : ascii) (rest : string) :
  buildRelationshipMutationName mutationAction typeName (String c rest)
  = buildRelationshipMutationName
      mutationAction typeName (String (ascii_toUpperCase c) rest)
  /\ forall (c' : ascii) (rest' : string),
       rest = String c' rest' ->
       ascii_toUpperCase c' = c' ->
       buildRelationshipMutationName mutationAction typeName (String c rest)
       = buildRelationshipMutationName
           mutationAction (typeName +:+ String (ascii_toUpperCase c) "") rest.
Proof.
  split.
  - rewrite !buildRelationshipMutationName_String.
    now rewrite ascii_toUpperCase_idempotent.
  - intros c' rest' -> Hupper.
    rewrite !buildRelationshipMutationName_String, Hupper.
    now rewrite append_String_assoc.
Qed.

(** ** Edge cases of the builders *)

Section BuilderEdgeCases.
Context `{Collaborators}.


Lemma not_mutation_action (mutationAction : string) :
  mutationAction <> RelationshipMutation_CREATE ->
  mutationAction <> RelationshipMutation_DELETE ->
  String.eqb mutationAction RelationshipMutation_CREATE = false
  /\ String.eqb mutationAction RelationshipMutation_DELETE = false.
Proof. intros Hc Hd. split; now apply String.eqb_neq. Qed.

(** X2. An action that is neither Add nor Remove is ignored by every
    builder: the API builder returns both maps as they are, also when the
    operation-type map has no Mutation entry, and the argument builder gives
    the two node selection arguments only, whatever the property fields. *)
Theorem unknown_action_is_ignored
    (mutationAction mutationName relationshipName fromType toType : string)
    (propertyInputValues : list PropertyInputValue)
    (propertyOutputFields : list FieldDefinition)
    (outputType : string)
    (generatedTypeMap : gmap string TypeDefinition)
    (operationTypeMap : gmap string ObjectTypeDefinition)
    (config : Config) :
  mutationAction <> RelationshipMutation_CREATE ->
  mutationAction <> RelationshipMutation_DELETE ->
  buildRelationshipMutationAPI
    mutationAction mutationName relationshipName fromType toType
    propertyInputValues propertyOutputFields outputType
    generatedTypeMap operationTypeMap config
  = Ok (operationTypeMap, generatedTypeMap)
  /\ buildRelationshipMutationArguments
       mutationAction fromType toType propertyOutputFields outputType
     = buildNodeSelectionArguments fromType toType.
Proof.
  intros Hc Hd. destruct (not_mutation_action _ Hc Hd) as [Ec Ed].
  unfold buildRelationshipMutationAPI, buildRelationshipMutationField,
    buildRelationshipMutationPropertyInputType,
    buildRelationshipMutationOutputType, buildRelationshipMutationArguments.
  rewrite Ec, Ed. split; reflexivity.
Qed.

(** X3. A generated field carries one or two directives, and two exactly
    when scope authorization is enabled and the action is Add or Remove:
    with authorization enabled, an action that maps to no verb still gets no
    authorization directive. *)
Theorem authorization_directive_iff
    (mutationAction relationshipName fromType toType : string)
    (propertyOutputFields : list FieldDefinition) (config : Config) :
  let directives :=
    buildRelationshipMutationDirectives
      mutationAction relationshipName fromType toType propertyOutputFields config in
  (length directives = 1 \/ length directives = 2)
  /\ (length directives = 2
      <-> useAuthDirective config DirectiveDefinition_HAS_SCOPE = true
          /\ (mutationAction = RelationshipMutation_CREATE
              \/ mutationAction = RelationshipMutation_DELETE)).
Proof.
  cbv zeta. unfold buildRelationshipMutationDirectives.
  destruct (useAuthDirective config DirectiveDefinition_HAS_SCOPE).
  - destruct (String.eqb_spec mutationAction RelationshipMutation_CREATE) as [Ec|Ec].
    { cbn. split; [right; reflexivity|]. split; auto. }
    destruct (String.eqb_spec mutationAction RelationshipMutation_DELETE) as [Ed|Ed].
    { cbn. split; [right; reflexivity|]. split; auto. }
    cbn. split; [left; reflexivity|]. split; [discriminate|].
    intros [_ [E|E]]; contradiction.
  - cbn. split; [left; reflexivity|]. split; [discriminate|].
    intros [E _]. discriminate E.
Qed.

(** X13. For Add with property input values, the property input type is
    written with at most as many fields as there are input values, and with
    no field at all exactly when a cypher directive is found on every one of
    them. *)
Theorem input_type_of_computed_properties
    (outputType : string)
    (propertyInputValues : list PropertyInputValue)
    (generatedTypeMap : gmap string TypeDefinition) :
  propertyInputValues <> [] ->
  exists input,
    buildRelationshipMutationPropertyInputType
      RelationshipMutation_CREATE outputType propertyInputValues generatedTypeMap
    !! ("_" +:+ outputType +:+ "Input") = Some (InputObjectType input)
    /\ length (io_fields input) <= length propertyInputValues
    /\ (io_fields input = []
        <-> Forall
              (fun inputValue =>
                 getDirective (pi_directives inputValue) DirectiveDefinition_CYPHER
                 <> None)
              propertyInputValues).
Proof.
  intros Hne. unfold buildRelationshipMutationPropertyInputType.
  rewrite String.eqb_refl, (truthy_length_nonempty _ Hne). cbn [andb].
  rewrite lookup_insert_eq. eexists. split; [reflexivity|].
  cbn [io_fields]. clear Hne. split.
  - rewrite length_map. apply List.filter_length_le.
  - induction propertyInputValues as [|inputValue inputValues IH].
    + split; [constructor | reflexivity].
    + cbn [List.filter].
      destruct (getDirective (pi_directives inputValue) DirectiveDefinition_CYPHER)
        as [directive|] eqn:E; cbn [truthy_object negb].
      * rewrite IH. split.
        -- intros Hall. constructor; [congruence | exact Hall].
        -- intros Hall. now inversion Hall.
      * split; [discriminate|].
        intros Hall. inversion Hall as [|? ? Hhead _]. contradiction.
Qed.
End BuilderEdgeCases.

(** ** The result of a run in closed form *)

Section RunProperties.
Context `{Collaborators}.
Variable d : RelationshipDescriptor.
Variable config : Config.

Lemma pushField_nil_nil (mutationType : ObjectTypeDefinition) :
  {| ot_name := ot_name mutationType;
     ot_fields := ot_fields mutationType ++ [] ++ [];
     ot_directives := ot_directives mutationType |}
  = mutationType.
Proof. destruct mutationType. cbn. now rewrite app_nil_r. Qed.

(** When the loop runs, the returned maps are the given ones with, for each
    of the two actions whose name no field carries yet, the generated field
    appended (Add before Remove) and the types of that action written. *)
Lemma augment_closed_form
    (typeDefinitionMap generatedTypeMap : gmap string TypeDefinition)
    (operationTypeMap : gmap string ObjectTypeDefinition)
    (mutationType : ObjectTypeDefinition) (addName removeName : string) :
  operationTypeMap !! OperationType_MUTATION = Some mutationType ->
  shouldAugmentRelationshipField config "mutation" (fromType d) (toType d) = true ->
  buildRelationshipMutationName
    RelationshipMutation_CREATE (typeName d) (fieldName d) = Ok addName ->
  buildRelationshipMutationName
    RelationshipMutation_DELETE (typeName d) (fieldName d) = Ok removeName ->
  let addMissing := Nat.eqb (count_named addName (ot_fields mutationType)) 0 in
  let removeMissing := Nat.eqb (count_named removeName (ot_fields mutationType)) 0 in
  let typesAfterAdd :=
    if addMissing
    then generatedTypes d RelationshipMutation_CREATE addName generatedTypeMap
    else generatedTypeMap in
  let typesAfterRemove :=
    if removeMissing
    then generatedTypes d RelationshipMutation_DELETE removeName typesAfterAdd
    else typesAfterAdd in
  augmentRelationshipMutationAPI
    d typeDefinitionMap generatedTypeMap operationTypeMap config
  = Ok (typeDefinitionMap,
        typesAfterRemove,
        <[ OperationType_MUTATION :=
           {| ot_name := ot_name mutationType;
              ot_fields :=
                ot_fields mutationType
                ++ (if addMissing
                    then [generatedField d config RelationshipMutation_CREATE addName]
                    else [])
                ++ (if removeMissing
                    then [generatedField d config RelationshipMutation_DELETE removeName]
                    else []);
              ot_directives := ot_directives mutationType |} ]>
        operationTypeMap).
Proof.
  intros Hm Hs Hadd Hrem. cbv zeta.
  pose proof (add_name_not_remove_name _ _ _ _ Hadd Hrem) as Hdiff.
  rewrite (augment_loops _ _ _ _ _ _ Hm Hs).
  rewrite (augmentAction_step d config _ _ _ generatedTypeMap _
             (or_introl eq_refl) Hadd Hm).
  rewrite getFieldDefinition_count.
  destruct (Nat.eqb (count_named addName (ot_fields mutationType)) 0) eqn:Ea;
    cbn [negb bind].
  - assert (Hm1 :
      <[ OperationType_MUTATION :=
         pushField mutationType
           (generatedField d config RelationshipMutation_CREATE addName) ]>
        operationTypeMap !! OperationType_MUTATION
      = Some (pushField mutationType
                (generatedField d config RelationshipMutation_CREATE addName)))
      by apply lookup_insert_eq.
    rewrite (augmentAction_step d config _ _ _ _ _ (or_intror eq_refl) Hrem Hm1).
    rewrite getFieldDefinition_count. cbn [pushField ot_fields].
    rewrite count_named_push. cbn [generatedField buildField buildName fd_name value].
    apply String.eqb_neq in Hdiff. rewrite Hdiff, Nat.add_0_r.
    destruct (Nat.eqb (count_named removeName (ot_fields mutationType)) 0);
      cbn [negb bind fst snd].
    + rewrite insert_insert_eq. unfold pushField. cbn [ot_name ot_fields ot_directives].
      now rewrite <- app_assoc.
    + unfold pushField. now rewrite app_nil_r.
  - rewrite (augmentAction_step d config _ _ _ generatedTypeMap _
               (or_intror eq_refl) Hrem Hm).
    rewrite getFieldDefinition_count.
    destruct (Nat.eqb (count_named removeName (ot_fields mutationType)) 0);
      cbn [negb bind fst snd].
    + reflexivity.
    + rewrite pushField_nil_nil. now rewrite (insert_id _ _ _ Hm).
Qed.
End RunProperties.

(** ** Lookups in the generated types of one action *)

Section GeneratedTypeLookups.
Context `{Collaborators}.
Variable d : RelationshipDescriptor.

Lemma count_named_app (name : string) (fields more : list FieldDefinition) :
  count_named name (fields ++ more)
  = count_named name fields + count_named name more.
Proof. unfold count_named. now rewrite List.filter_app, length_app. Qed.

Lemma generatedTypes_payload
    (mutationAction mutationName : string)
    (generatedTypeMap : gmap string TypeDefinition) :
  mutationAction = RelationshipMutation_CREATE
  \/ mutationAction = RelationshipMutation_DELETE ->
  exists payload,
    generatedTypes d mutationAction mutationName generatedTypeMap
    !! ("_" +:+ mutationName +:+ "Payload") = Some (ObjectType payload)
    /\ ot_name payload = {| value := "_" +:+ mutationName +:+ "Payload" |}.
Proof.
  intros Ha. unfold generatedTypes, buildRelationshipMutationOutputType.
  rewrite (is_mutation_action _ Ha), lookup_insert_eq.
  eexists. split; reflexivity.
Qed.

Lemma generatedTypes_other
    (mutationAction mutationName : string)
    (generatedTypeMap : gmap string TypeDefinition) (name : string) :
  name <> "_" +:+ mutationName +:+ "Payload" ->
  name <> "_" +:+ outputType d +:+ "Input" ->
  generatedTypes d mutationAction mutationName generatedTypeMap !! name
  = generatedTypeMap !! name.
Proof.
  intros Hp Hi.
  unfold generatedTypes, buildRelationshipMutationOutputType,
    buildRelationshipMutationPropertyInputType.
  destruct (String.eqb mutationAction RelationshipMutation_CREATE
            || String.eqb mutationAction RelationshipMutation_DELETE);
    [rewrite lookup_insert_ne by congruence|];
    (destruct (String.eqb mutationAction RelationshipMutation_CREATE
               && truthy_length (length (propertyInputValues d)));
     [apply lookup_insert_ne; congruence | reflexivity]).
Qed.

Lemma generatedTypes_DELETE_other
    (mutationName : string)
    (generatedTypeMap : gmap string TypeDefinition) (name : string) :
  name <> "_" +:+ mutationName +:+ "Payload" ->
  generatedTypes d RelationshipMutation_DELETE mutationName generatedTypeMap !! name
  = generatedTypeMap !! name.
Proof.
  intros Hp.
  unfold generatedTypes, buildRelationshipMutationOutputType,
    buildRelationshipMutationPropertyInputType.
  rewrite eqb_CREATE_DELETE, String.eqb_refl. cbn [orb andb].
  apply lookup_insert_ne. congruence.
Qed.

Lemma generatedTypes_CREATE_input
    (mutationName : string) (generatedTypeMap : gmap string TypeDefinition) :
  propertyInputValues d <> [] ->
  exists input,
    generatedTypes d RelationshipMutation_CREATE mutationName generatedTypeMap
    !! ("_" +:+ outputType d +:+ "Input") = Some (InputObjectType input)
    /\ io_name input = {| value := "_" +:+ outputType d +:+ "Input" |}.
Proof.
  intros Hne.
  unfold generatedTypes, buildRelationshipMutationOutputType,
    buildRelationshipMutationPropertyInputType.
  rewrite String.eqb_refl, (truthy_length_nonempty _ Hne). cbn [orb andb].
  rewrite lookup_insert_ne by apply payload_name_not_input_name.
  rewrite lookup_insert_eq. eexists. split; reflexivity.
Qed.

Lemma generatedTypes_keeps_keys
    (mutationAction mutationName : string)
    (generatedTypeMap : gmap string TypeDefinition) (name : string) :
  is_Some (generatedTypeMap !! name) ->
  is_Some (generatedTypes d mutationAction mutationName generatedTypeMap !! name).
Proof.
  intros Hsome.
  unfold generatedTypes, buildRelationshipMutationOutputType,
    buildRelationshipMutationPropertyInputType.
  assert (Hinsert : forall key (type : TypeDefinition) (types : gmap string TypeDefinition),
             is_Some (types !! name) -> is_Some (<[ key := type ]> types !! name)).
  { intros key type types Htypes. rewrite lookup_insert.
    destruct (decide (key = name)); [eexists; reflexivity | exact Htypes]. }
  destruct (String.eqb mutationAction RelationshipMutation_CREATE
            || String.eqb mutationAction RelationshipMutation_DELETE);
    [apply Hinsert|];
    (destruct (String.eqb mutationAction RelationshipMutation_CREATE
               && truthy_length (length (propertyInputValues d)));
     [apply Hinsert; exact Hsome | exact Hsome]).
Qed.
End GeneratedTypeLookups.

(** ** When the orchestrator throws, and when it changes nothing *)

Section RunLemmas.
Context `{Collaborators}.
Variable d : RelationshipDescriptor.
Variable config : Config.

Lemma count_named_generatedField (mutationAction mutationName : string) :
  count_named mutationName [generatedField d config mutationAction mutationName] = 1.
Proof.
  unfold count_named.
  cbn [List.filter generatedField buildField buildName fd_name value].
  now rewrite String.eqb_refl.
Qed.

(** When both names are carried by fields already, a run changes nothing. *)
Lemma augment_noop_when_present
    (typeDefinitionMap generatedTypeMap : gmap string TypeDefinition)
    (operationTypeMap : gmap string ObjectTypeDefinition)
    (mutationType : ObjectTypeDefinition) (addName removeName : string) :
  operationTypeMap !! OperationType_MUTATION = Some mutationType ->
  buildRelationshipMutationName
    RelationshipMutation_CREATE (typeName d) (fieldName d) = Ok addName ->
  buildRelationshipMutationName
    RelationshipMutation_DELETE (typeName d) (fieldName d) = Ok removeName ->
  count_named addName (ot_fields mutationType) <> 0 ->
  count_named removeName (ot_fields mutationType) <> 0 ->
  augmentRelationshipMutationAPI
    d typeDefinitionMap generatedTypeMap operationTypeMap config
  = Ok (typeDefinitionMap, generatedTypeMap, operationTypeMap).
Proof.
  intros Hm Hadd Hrem Ha Hr.
  destruct (shouldAugmentRelationshipField config "mutation"
              (fromType d) (toType d)) eqn:Hs.
  - rewrite (augment_closed_form d config _ _ _ _ _ _ Hm Hs Hadd Hrem).
    apply Nat.eqb_neq in Ha, Hr. rewrite Ha, Hr.
    rewrite pushField_nil_nil. now rewrite (insert_id _ _ _ Hm).
  - apply augment_skips. right. exact Hs.
Qed.

(** After a run of the loop both names are carried by fields. *)
Lemma augment_names_present
    (typeDefinitionMap generatedTypeMap : gmap string TypeDefinition)
    (operationTypeMap : gmap string ObjectTypeDefinition)
    (mutationType : ObjectTypeDefinition) (addName removeName : string)
    (typeDefinitionMap' generatedTypeMap' : gmap string TypeDefinition)
    (operationTypeMap' : gmap string ObjectTypeDefinition) :
  operationTypeMap !! OperationType_MUTATION = Some mutationType ->
  shouldAugmentRelationshipField config "mutation" (fromType d) (toType d) = true ->
  buildRelationshipMutationName
    RelationshipMutation_CREATE (typeName d) (fieldName d) = Ok addName ->
  buildRelationshipMutationName
    RelationshipMutation_DELETE (typeName d) (fieldName d) = Ok removeName ->
  augmentRelationshipMutationAPI
    d typeDefinitionMap generatedTypeMap operationTypeMap config
  = Ok (typeDefinitionMap', generatedTypeMap', operationTypeMap') ->
  exists mutationType',
    operationTypeMap' !! OperationType_MUTATION = Some mutationType'
    /\ count_named addName (ot_fields mutationType') <> 0
    /\ count_named removeName (ot_fields mutationType') <> 0.
Proof.
  intros Hm Hs Hadd Hrem Hrun.
  rewrite (augment_closed_form d config _ _ _ _ _ _ Hm Hs Hadd Hrem) in Hrun.
  injection Hrun as <- <- <-.
  eexists. split; [apply lookup_insert_eq|]. cbn [ot_fields].
  rewrite !count_named_app. split.
  - destruct (Nat.eqb_spec (count_named addName (ot_fields mutationType)) 0)
      as [E|E]; [|lia].
    rewrite count_named_generatedField. lia.
  - destruct (Nat.eqb_spec (count_named removeName (ot_fields mutationType)) 0)
      as [E|E]; [|lia].
    rewrite count_named_generatedField. lia.
Qed.
End RunLemmas.

Section NoopProperties.
Context `{Collaborators}.
Variable d : RelationshipDescriptor.
Variable config : Config.

(** X14. The orchestrator throws exactly when the operation-type map has a
    Mutation entry, the applicability predicate is true and the field name
    is empty; in every other case it returns. A descriptor with an empty
    field name is thus accepted in silence wherever the pass is skipped. *)
Theorem orchestrator_throws_iff
    (typeDefinitionMap generatedTypeMap : gmap string TypeDefinition)
    (operationTypeMap : gmap string ObjectTypeDefinition) :
  let run :=
    augmentRelationshipMutationAPI
      d typeDefinitionMap generatedTypeMap operationTypeMap config in
  let fails :=
    is_Some (operationTypeMap !! OperationType_MUTATION)
    /\ shouldAugmentRelationshipField config "mutation" (fromType d) (toType d) = true
    /\ fieldName d = "" in
  (run = Throw TypeError <-> fails)
  /\ (~ fails -> exists triple, run = Ok triple).
Proof.
  cbv zeta.
  destruct (operationTypeMap !! OperationType_MUTATION) as [mutationType|] eqn:Hm;
    [destruct (shouldAugmentRelationshipField config "mutation"
                 (fromType d) (toType d)) eqn:Hs;
     [destruct (String.string_dec (fieldName d) "") as [Hf|Hf]|]|].
  - rewrite (augment_throws _ _ _ _ _ _ Hm Hs Hf). split.
    + split; [|reflexivity]. intros _. split; [eexists; reflexivity|]. now split.
    + intros Hnot. exfalso. apply Hnot. split; [eexists; reflexivity|]. now split.
  - destruct (augment_runs d config typeDefinitionMap generatedTypeMap _ _ Hm Hs Hf)
      as (? & ? & ? & ? & ? & ? & ? & ? & _ & _ & _ & _ & _ & _ & Hrun).
    rewrite Hrun. split.
    + split; [discriminate|]. intros (_ & _ & Hempty). contradiction.
    + intros _. eexists. reflexivity.
  - rewrite (augment_skips d config typeDefinitionMap generatedTypeMap
               operationTypeMap) by (right; exact Hs). split.
    + split; [discriminate|]. intros (_ & Habs & _). discriminate Habs.
    + intros _. eexists. reflexivity.
  - rewrite (augment_skips d config typeDefinitionMap generatedTypeMap
               operationTypeMap) by (left; exact Hm). split.
    + split; [discriminate|]. intros ([? Habs] & _). discriminate Habs.
    + intros _. eexists. reflexivity.
Qed.

(** X6. A run that returns leaves the operation-type map as it was exactly
    when there is no Mutation entry, or the applicability predicate is
    false, or both generated names are carried by Mutation fields already;
    and in these cases the generated-type map is left as it was too, so that
    payload types missing from it are not written. *)
Theorem orchestrator_noop_iff
    (typeDefinitionMap generatedTypeMap : gmap string TypeDefinition)
    (operationTypeMap : gmap string ObjectTypeDefinition)
    (typeDefinitionMap' generatedTypeMap' : gmap string TypeDefinition)
    (operationTypeMap' : gmap string ObjectTypeDefinition) :
  augmentRelationshipMutationAPI
    d typeDefinitionMap generatedTypeMap operationTypeMap config
  = Ok (typeDefinitionMap', generatedTypeMap', operationTypeMap') ->
  let nothingToDo :=
    operationTypeMap !! OperationType_MUTATION = None
    \/ shouldAugmentRelationshipField config "mutation" (fromType d) (toType d) = false
    \/ exists addName removeName,
         buildRelationshipMutationName
           RelationshipMutation_CREATE (typeName d) (fieldName d) = Ok addName
         /\ buildRelationshipMutationName
              RelationshipMutation_DELETE (typeName d) (fieldName d) = Ok removeName
         /\ count_named addName (mutationFields operationTypeMap) <> 0
         /\ count_named removeName (mutationFields operationTypeMap) <> 0 in
  (operationTypeMap' = operationTypeMap <-> nothingToDo)
  /\ (nothingToDo -> generatedTypeMap' = generatedTypeMap).
Proof.
  intros Hrun. cbv zeta.
  destruct (operationTypeMap !! OperationType_MUTATION) as [mutationType|] eqn:Hm;
    [destruct (shouldAugmentRelationshipField config "mutation"
                 (fromType d) (toType d)) eqn:Hs|].
  - destruct (String.string_dec (fieldName d) "") as [Hf|Hf].
    { rewrite (augment_throws _ _ _ _ _ _ Hm Hs Hf) in Hrun. discriminate. }
    destruct (buildRelationshipMutationName_total
                RelationshipMutation_CREATE (typeName d) _ Hf) as [addName Hadd].
    destruct (buildRelationshipMutationName_total
                RelationshipMutation_DELETE (typeName d) _ Hf) as [removeName Hrem].
    assert (Hpresent :
      count_named addName (ot_fields mutationType) <> 0
      /\ count_named removeName (ot_fields mutationType) <> 0 ->
      operationTypeMap' = operationTypeMap /\ generatedTypeMap' = generatedTypeMap).
    { intros [Ha Hr].
      rewrite (augment_noop_when_present d config _ _ _ _ _ _ Hm Hadd Hrem Ha Hr)
        in Hrun.
      now injection Hrun as <- <- <-. }
    assert (Hcond :
      (operationTypeMap !! OperationType_MUTATION = None
       \/ true = false
       \/ exists addName' removeName',
            buildRelationshipMutationName
              RelationshipMutation_CREATE (typeName d) (fieldName d) = Ok addName'
            /\ buildRelationshipMutationName
                 RelationshipMutation_DELETE (typeName d) (fieldName d)
               = Ok removeName'
            /\ count_named addName' (mutationFields operationTypeMap) <> 0
            /\ count_named removeName' (mutationFields operationTypeMap) <> 0) ->
      count_named addName (ot_fields mutationType) <> 0
      /\ count_named removeName (ot_fields mutationType) <> 0).
    { unfold mutationFields. rewrite Hm.
      intros [Habs | [Habs | (a' & r' & Ha' & Hr' & Hca & Hcr)]];
        [congruence | discriminate |].
      rewrite Hadd in Ha'. rewrite Hrem in Hr'.
      injection Ha' as <-. injection Hr' as <-. now split. }
    rewrite Hm in Hcond. split; [split|].
    + intros ->.
      rewrite (augment_closed_form d config _ _ _ _ _ _ Hm Hs Hadd Hrem) in Hrun.
      injection Hrun as _ _ Hmap.
      apply (f_equal (fun m => ot_fields <$> m !! OperationType_MUTATION)) in Hmap.
      rewrite lookup_insert_eq, Hm in Hmap. cbn in Hmap.
      injection Hmap as Hfields.
      apply (f_equal length) in Hfields. rewrite !length_app in Hfields.
      right. right. exists addName, removeName.
      unfold mutationFields. rewrite Hm.
      split; [exact Hadd|]. split; [exact Hrem|].
      destruct (Nat.eqb_spec (count_named addName (ot_fields mutationType)) 0);
        destruct (Nat.eqb_spec (count_named removeName (ot_fields mutationType)) 0);
        cbn in Hfields; split; lia.
    + intros Hc. apply Hpresent, Hcond, Hc.
    + intros Hc. apply Hpresent, Hcond, Hc.
  - rewrite (augment_skips d config typeDefinitionMap generatedTypeMap
               operationTypeMap) in Hrun by (right; exact Hs).
    injection Hrun as <- <- <-. split; [split|]; auto.
  - rewrite (augment_skips d config typeDefinitionMap generatedTypeMap
               operationTypeMap) in Hrun by (left; exact Hm).
    injection Hrun as <- <- <-. split; [split|]; auto.
Qed.
End NoopProperties.

(** ** What a run adds *)

Section AdditionProperties.
Context `{Collaborators}.
Variable d : RelationshipDescriptor.
Variable config : Config.

(** X7. After a run for a descriptor to which the pass applies, a run for
    any descriptor with the same two generated names returns the maps as
    they are: the second descriptor gets no field and no type of its own,
    whatever its relationship, endpoints and properties. *)
Theorem colliding_descriptor_adds_nothing
    (d' : RelationshipDescriptor)
    (typeDefinitionMap generatedTypeMap : gmap string TypeDefinition)
    (operationTypeMap : gmap string ObjectTypeDefinition)
    (typeDefinitionMap' generatedTypeMap' : gmap string TypeDefinition)
    (operationTypeMap' : gmap string ObjectTypeDefinition) :
  shouldAugmentRelationshipField config "mutation" (fromType d) (toType d) = true ->
  (forall mutationAction,
      buildRelationshipMutationName mutationAction (typeName d') (fieldName d')
      = buildRelationshipMutationName mutationAction (typeName d) (fieldName d)) ->
  augmentRelationshipMutationAPI
    d typeDefinitionMap generatedTypeMap operationTypeMap config
  = Ok (typeDefinitionMap', generatedTypeMap', operationTypeMap') ->
  augmentRelationshipMutationAPI
    d' typeDefinitionMap' generatedTypeMap' operationTypeMap' config
  = Ok (typeDefinitionMap', generatedTypeMap', operationTypeMap').
Proof.
  intros Hs Hnames Hrun.
  destruct (operationTypeMap !! OperationType_MUTATION) as [mutationType|] eqn:Hm.
  - destruct (String.string_dec (fieldName d) "") as [Hf|Hf].
    { rewrite (augment_throws _ _ _ _ _ _ Hm Hs Hf) in Hrun. discriminate. }
    destruct (buildRelationshipMutationName_total
                RelationshipMutation_CREATE (typeName d) _ Hf) as [addName Hadd].
    destruct (buildRelationshipMutationName_total
                RelationshipMutation_DELETE (typeName d) _ Hf) as [removeName Hrem].
    destruct (augment_names_present d config _ _ _ _ _ _ _ _ _ Hm Hs Hadd Hrem Hrun)
      as (mutationType' & Hm' & Ha & Hr).
    rewrite <- Hnames in Hadd, Hrem.
    apply (augment_noop_when_present d' config _ _ _ _ _ _ Hm' Hadd Hrem Ha Hr).
  - rewrite (augment_skips d config typeDefinitionMap generatedTypeMap
               operationTypeMap) in Hrun by (left; exact Hm).
    injection Hrun as <- <- <-. apply augment_skips. left. exact Hm.
Qed.

(** X8. A run only appends to the Mutation type: its name and directives
    stay, its fields stay in place as a prefix of the new field list, and at
    most two fields follow them, each carrying the Add or the Remove name of
    the descriptor, a name that no field carried before. *)
Theorem mutation_fields_only_appended
    (typeDefinitionMap generatedTypeMap : gmap string TypeDefinition)
    (operationTypeMap : gmap string ObjectTypeDefinition)
    (mutationType : ObjectTypeDefinition)
    (typeDefinitionMap' generatedTypeMap' : gmap string TypeDefinition)
    (operationTypeMap' : gmap string ObjectTypeDefinition) :
  operationTypeMap !! OperationType_MUTATION = Some mutationType ->
  augmentRelationshipMutationAPI
    d typeDefinitionMap generatedTypeMap operationTypeMap config
  = Ok (typeDefinitionMap', generatedTypeMap', operationTypeMap') ->
  exists mutationType' added,
    operationTypeMap' !! OperationType_MUTATION = Some mutationType'
    /\ ot_name mutationType' = ot_name mutationType
    /\ ot_directives mutationType' = ot_directives mutationType
    /\ ot_fields mutationType' = ot_fields mutationType ++ added
    /\ length added <= 2
    /\ forall field, field ∈ added ->
         count_named (value (fd_name field)) (ot_fields mutationType) = 0
         /\ exists mutationAction,
              (mutationAction = RelationshipMutation_CREATE
               \/ mutationAction = RelationshipMutation_DELETE)
              /\ buildRelationshipMutationName
                   mutationAction (typeName d) (fieldName d)
                 = Ok (value (fd_name field)).
Proof.
  intros Hm Hrun.
  destruct (shouldAugmentRelationshipField config "mutation"
              (fromType d) (toType d)) eqn:Hs.
  - destruct (String.string_dec (fieldName d) "") as [Hf|Hf].
    { rewrite (augment_throws _ _ _ _ _ _ Hm Hs Hf) in Hrun. discriminate. }
    destruct (buildRelationshipMutationName_total
                RelationshipMutation_CREATE (typeName d) _ Hf) as [addName Hadd].
    destruct (buildRelationshipMutationName_total
                RelationshipMutation_DELETE (typeName d) _ Hf) as [removeName Hrem].
    rewrite (augment_closed_form d config _ _ _ _ _ _ Hm Hs Hadd Hrem) in Hrun.
    injection Hrun as <- <- <-.
    eexists. eexists. split; [apply lookup_insert_eq|].
    split; [reflexivity|]. split; [reflexivity|]. split; [reflexivity|].
    destruct (Nat.eqb_spec (count_named addName (ot_fields mutationType)) 0)
      as [Ea|Ea];
      destruct (Nat.eqb_spec (count_named removeName (ot_fields mutationType)) 0)
        as [Er|Er];
      (split; [cbn; lia|]); intros field Hin; cbn in Hin;
      repeat match goal with
        | Hin : _ ∈ [] |- _ => apply elem_of_nil in Hin; contradiction
        | Hin : _ ∈ _ :: _ |- _ => apply elem_of_cons in Hin as [-> | Hin]
        end;
      (split; [assumption|]);
      first [ exists RelationshipMutation_CREATE; split; [left; reflexivity|];
              exact Hadd
            | exists RelationshipMutation_DELETE; split; [right; reflexivity|];
              exact Hrem ].
  - rewrite (augment_skips d config typeDefinitionMap generatedTypeMap
               operationTypeMap) in Hrun by (right; exact Hs).
    injection Hrun as <- <- <-. exists mutationType, [].
    split; [exact Hm|]. split; [reflexivity|]. split; [reflexivity|].
    split; [now rewrite app_nil_r|]. split; [cbn; lia|].
    intros field Hin. apply elem_of_nil in Hin. contradiction.
Qed.

(** X9. When the loop runs on a Mutation type none of whose fields carries
    either generated name, exactly two fields are appended, the Add field
    and then the Remove field, each returning the payload type named after
    it. *)
Theorem fresh_run_appends_add_then_remove
    (typeDefinitionMap generatedTypeMap : gmap string TypeDefinition)
    (operationTypeMap : gmap string ObjectTypeDefinition)
    (mutationType : ObjectTypeDefinition) (addName removeName : string) :
  operationTypeMap !! OperationType_MUTATION = Some mutationType ->
  shouldAugmentRelationshipField config "mutation" (fromType d) (toType d) = true ->
  buildRelationshipMutationName
    RelationshipMutation_CREATE (typeName d) (fieldName d) = Ok addName ->
  buildRelationshipMutationName
    RelationshipMutation_DELETE (typeName d) (fieldName d) = Ok removeName ->
  count_named addName (ot_fields mutationType) = 0 ->
  count_named removeName (ot_fields mutationType) = 0 ->
  exists generatedTypeMap' operationTypeMap' addField removeField,
    augmentRelationshipMutationAPI
      d typeDefinitionMap generatedTypeMap operationTypeMap config
    = Ok (typeDefinitionMap, generatedTypeMap', operationTypeMap')
    /\ mutationFields operationTypeMap'
       = ot_fields mutationType ++ [addField; removeField]
    /\ fd_name addField = {| value := addName |}
    /\ fd_name removeField = {| value := removeName |}
    /\ fd_type addField
       = buildNamedType
           {| nt_name := "_" +:+ addName +:+ "Payload"; nt_wrappers := ∅ |}
    /\ fd_type removeField
       = buildNamedType
           {| nt_name := "_" +:+ removeName +:+ "Payload"; nt_wrappers := ∅ |}.
Proof.
  intros Hm Hs Hadd Hrem Ha Hr.
  rewrite (augment_closed_form d config _ _ _ _ _ _ Hm Hs Hadd Hrem).
  rewrite Ha, Hr. cbn [Nat.eqb].
  do 4 eexists. split; [reflexivity|].
  unfold mutationFields. rewrite lookup_insert_eq. cbn [ot_fields].
  split; [reflexivity|]. repeat split.
Qed.

(** X10. Whatever a run adds to the Mutation type has its return type
    defined by that run: for every field of the returned Mutation type that
    was not there before, the returned generated-type map holds, under the
    name the field's type refers to, an object type of that name. An entry
    kept there before is replaced. *)
Theorem added_fields_have_their_payload_types
    (typeDefinitionMap generatedTypeMap : gmap string TypeDefinition)
    (operationTypeMap : gmap string ObjectTypeDefinition)
    (mutationType : ObjectTypeDefinition)
    (typeDefinitionMap' generatedTypeMap' : gmap string TypeDefinition)
    (operationTypeMap' : gmap string ObjectTypeDefinition) :
  operationTypeMap !! OperationType_MUTATION = Some mutationType ->
  augmentRelationshipMutationAPI
    d typeDefinitionMap generatedTypeMap operationTypeMap config
  = Ok (typeDefinitionMap', generatedTypeMap', operationTypeMap') ->
  forall field,
    field ∈ mutationFields operationTypeMap' ->
    field ∉ ot_fields mutationType ->
    let payloadName := "_" +:+ value (fd_name field) +:+ "Payload" in
    fd_type field
    = buildNamedType {| nt_name := payloadName; nt_wrappers := ∅ |}
    /\ exists payload,
         generatedTypeMap' !! payloadName = Some (ObjectType payload)
         /\ ot_name payload = {| value := payloadName |}.
Proof.
  intros Hm Hrun field Hin Hnew. cbv zeta.
  destruct (shouldAugmentRelationshipField config "mutation"
              (fromType d) (toType d)) eqn:Hs.
  - destruct (String.string_dec (fieldName d) "") as [Hf|Hf].
    { rewrite (augment_throws _ _ _ _ _ _ Hm Hs Hf) in Hrun. discriminate. }
    destruct (buildRelationshipMutationName_total
                RelationshipMutation_CREATE (typeName d) _ Hf) as [addName Hadd].
    destruct (buildRelationshipMutationName_total
                RelationshipMutation_DELETE (typeName d) _ Hf) as [removeName Hrem].
    pose proof (payload_keys_differ _ _ _ _ Hadd Hrem) as Hkeys.
    rewrite (augment_closed_form d config _ _ _ _ _ _ Hm Hs Hadd Hrem) in Hrun.
    injection Hrun as <- <- <-.
    unfold mutationFields in Hin. rewrite lookup_insert_eq in Hin.
    cbn [ot_fields] in Hin.
    apply elem_of_app in Hin as [Hin | Hin]; [contradiction|].
    apply elem_of_app in Hin as [Hin | Hin].
    + destruct (Nat.eqb (count_named addName (ot_fields mutationType)) 0);
        [|apply elem_of_nil in Hin; contradiction].
      apply list_elem_of_singleton in Hin as ->.
      split; [reflexivity|].
      cbn [generatedField buildField buildName fd_name value].
      destruct (generatedTypes_payload d RelationshipMutation_CREATE addName
                  generatedTypeMap (or_introl eq_refl)) as (payload & Hp & Hn).
      exists payload. split; [|exact Hn].
      destruct (Nat.eqb (count_named removeName (ot_fields mutationType)) 0);
        [|exact Hp].
      rewrite generatedTypes_DELETE_other by exact Hkeys. exact Hp.
    + destruct (Nat.eqb (count_named removeName (ot_fields mutationType)) 0);
        [|apply elem_of_nil in Hin; contradiction].
      apply list_elem_of_singleton in Hin as ->.
      split; [reflexivity|].
      cbn [generatedField buildField buildName fd_name value].
      apply generatedTypes_payload. right. reflexivity.
  - rewrite (augment_skips d config typeDefinitionMap generatedTypeMap
               operationTypeMap) in Hrun by (right; exact Hs).
    injection Hrun as <- <- <-.
    unfold mutationFields in Hin. rewrite Hm in Hin. contradiction.
Qed.
End AdditionProperties.

(** ** What a run writes into the generated-type map *)

Section WriteProperties.
Context `{Collaborators}.
Variable d : RelationshipDescriptor.
Variable config : Config.

(** X11. A run removes no entry of the generated-type map, and the only
    entries it can change are the property input type of the descriptor's
    relationship type and the payload types named after the Add and the
    Remove name. *)
Theorem generated_types_frame
    (typeDefinitionMap generatedTypeMap : gmap string TypeDefinition)
    (operationTypeMap : gmap string ObjectTypeDefinition)
    (typeDefinitionMap' generatedTypeMap' : gmap string TypeDefinition)
    (operationTypeMap' : gmap string ObjectTypeDefinition) :
  augmentRelationshipMutationAPI
    d typeDefinitionMap generatedTypeMap operationTypeMap config
  = Ok (typeDefinitionMap', generatedTypeMap', operationTypeMap') ->
  forall name,
    (is_Some (generatedTypeMap !! name) -> is_Some (generatedTypeMap' !! name))
    /\ (generatedTypeMap' !! name <> generatedTypeMap !! name ->
        name = "_" +:+ outputType d +:+ "Input"
        \/ exists mutationAction mutationName,
             (mutationAction = RelationshipMutation_CREATE
              \/ mutationAction = RelationshipMutation_DELETE)
             /\ buildRelationshipMutationName
                  mutationAction (typeName d) (fieldName d) = Ok mutationName
             /\ name = "_" +:+ mutationName +:+ "Payload").
Proof.
  intros Hrun name.
  destruct (operationTypeMap !! OperationType_MUTATION) as [mutationType|] eqn:Hm;
    [destruct (shouldAugmentRelationshipField config "mutation"
                 (fromType d) (toType d)) eqn:Hs|].
  - destruct (String.string_dec (fieldName d) "") as [Hf|Hf].
    { rewrite (augment_throws _ _ _ _ _ _ Hm Hs Hf) in Hrun. discriminate. }
    destruct (buildRelationshipMutationName_total
                RelationshipMutation_CREATE (typeName d) _ Hf) as [addName Hadd].
    destruct (buildRelationshipMutationName_total
                RelationshipMutation_DELETE (typeName d) _ Hf) as [removeName Hrem].
    rewrite (augment_closed_form d config _ _ _ _ _ _ Hm Hs Hadd Hrem) in Hrun.
    injection Hrun as <- <- <-. split.
    + intros Hsome.
      destruct (Nat.eqb (count_named removeName (ot_fields mutationType)) 0);
        [apply generatedTypes_keeps_keys|];
        (destruct (Nat.eqb (count_named addName (ot_fields mutationType)) 0);
         [apply generatedTypes_keeps_keys; exact Hsome | exact Hsome]).
    + intros Hchanged.
      destruct (decide (name = "_" +:+ outputType d +:+ "Input")) as [Hi|Hi];
        [left; exact Hi|].
      destruct (decide (name = "_" +:+ addName +:+ "Payload")) as [Ha|Ha].
      { right. exists RelationshipMutation_CREATE, addName.
        split; [left; reflexivity|]. now split. }
      destruct (decide (name = "_" +:+ removeName +:+ "Payload")) as [Hr|Hr].
      { right. exists RelationshipMutation_DELETE, removeName.
        split; [right; reflexivity|]. now split. }
      exfalso. apply Hchanged.
      destruct (Nat.eqb (count_named removeName (ot_fields mutationType)) 0);
        [rewrite generatedTypes_other by assumption|];
        (destruct (Nat.eqb (count_named addName (ot_fields mutationType)) 0);
         [apply generatedTypes_other; assumption | reflexivity]).
  - rewrite (augment_skips d config typeDefinitionMap generatedTypeMap
               operationTypeMap) in Hrun by (right; exact Hs).
    injection Hrun as <- <- <-. split; [auto | congruence].
  - rewrite (augment_skips d config typeDefinitionMap generatedTypeMap
               operationTypeMap) in Hrun by (left; exact Hm).
    injection Hrun as <- <- <-. split; [auto | congruence].
Qed.

(** X12. When a field of the Add name exists already and none of the Remove
    name, a run appends the Remove field alone and writes the Remove payload
    type alone: every other entry of the generated-type map is left as it
    was, so the property input type is not written even when the descriptor
    has property input values. *)
Theorem existing_add_field_blocks_input_type
    (typeDefinitionMap generatedTypeMap : gmap string TypeDefinition)
    (operationTypeMap : gmap string ObjectTypeDefinition)
    (mutationType : ObjectTypeDefinition) (addName removeName : string) :
  operationTypeMap !! OperationType_MUTATION = Some mutationType ->
  shouldAugmentRelationshipField config "mutation" (fromType d) (toType d) = true ->
  buildRelationshipMutationName
    RelationshipMutation_CREATE (typeName d) (fieldName d) = Ok addName ->
  buildRelationshipMutationName
    RelationshipMutation_DELETE (typeName d) (fieldName d) = Ok removeName ->
  count_named addName (ot_fields mutationType) <> 0 ->
  count_named removeName (ot_fields mutationType) = 0 ->
  exists generatedTypeMap' operationTypeMap' removeField,
    augmentRelationshipMutationAPI
      d typeDefinitionMap generatedTypeMap operationTypeMap config
    = Ok (typeDefinitionMap, generatedTypeMap', operationTypeMap')
    /\ mutationFields operationTypeMap' = ot_fields mutationType ++ [removeField]
    /\ fd_name removeField = {| value := removeName |}
    /\ (forall name, name <> "_" +:+ removeName +:+ "Payload" ->
          generatedTypeMap' !! name = generatedTypeMap !! name)
    /\ generatedTypeMap' !! ("_" +:+ outputType d +:+ "Input")
       = generatedTypeMap !! ("_" +:+ outputType d +:+ "Input").
Proof.
  intros Hm Hs Hadd Hrem Ha Hr.
  rewrite (augment_closed_form d config _ _ _ _ _ _ Hm Hs Hadd Hrem).
  apply Nat.eqb_neq in Ha. rewrite Ha, Hr. cbn [Nat.eqb].
  do 3 eexists. split; [reflexivity|].
  unfold mutationFields. rewrite lookup_insert_eq. cbn [ot_fields app].
  split; [reflexivity|]. split; [reflexivity|]. split.
  - intros name Hname. now apply generatedTypes_DELETE_other.
  - apply generatedTypes_DELETE_other. apply not_eq_sym.
    apply payload_name_not_input_name.
Qed.

(** X15. When the loop runs for a descriptor with property input values and
    no field carries the Add name yet, the returned generated-type map holds
    the property input type [_<outputType>Input] of that name: the later
    writes of the two payload types do not touch it, and an entry kept under
    that name before is replaced. *)
Theorem fresh_add_defines_input_type
    (typeDefinitionMap generatedTypeMap : gmap string TypeDefinition)
    (operationTypeMap : gmap string ObjectTypeDefinition)
    (mutationType : ObjectTypeDefinition) (addName : string) :
  operationTypeMap !! OperationType_MUTATION = Some mutationType ->
  shouldAugmentRelationshipField config "mutation" (fromType d) (toType d) = true ->
  buildRelationshipMutationName
    RelationshipMutation_CREATE (typeName d) (fieldName d) = Ok addName ->
  count_named addName (ot_fields mutationType) = 0 ->
  propertyInputValues d <> [] ->
  exists generatedTypeMap' operationTypeMap' input,
    augmentRelationshipMutationAPI
      d typeDefinitionMap generatedTypeMap operationTypeMap config
    = Ok (typeDefinitionMap, generatedTypeMap', operationTypeMap')
    /\ generatedTypeMap' !! ("_" +:+ outputType d +:+ "Input")
       = Some (InputObjectType input)
    /\ io_name input = {| value := "_" +:+ outputType d +:+ "Input" |}
    /\ generatedTypeMap' !! ("_" +:+ outputType d +:+ "Input")
       = buildRelationshipMutationPropertyInputType
           RelationshipMutation_CREATE (outputType d) (propertyInputValues d) ∅
         !! ("_" +:+ outputType d +:+ "Input").
Proof.
  intros Hm Hs Hadd Ha Hne.
  assert (Hf : fieldName d <> "").
  { intros Hf. rewrite Hf in Hadd. discriminate. }
  destruct (buildRelationshipMutationName_total
              RelationshipMutation_DELETE (typeName d) _ Hf) as [removeName Hrem].
  rewrite (augment_closed_form d config _ _ _ _ _ _ Hm Hs Hadd Hrem).
  rewrite Ha. cbn [Nat.eqb].
  destruct (generatedTypes_CREATE_input d addName generatedTypeMap Hne)
    as (input & Hlook & Hname).
  assert (Hsame :
    generatedTypes d RelationshipMutation_CREATE addName generatedTypeMap
      !! ("_" +:+ outputType d +:+ "Input")
    = buildRelationshipMutationPropertyInputType
        RelationshipMutation_CREATE (outputType d) (propertyInputValues d) ∅
      !! ("_" +:+ outputType d +:+ "Input")).
  { unfold generatedTypes, buildRelationshipMutationOutputType,
      buildRelationshipMutationPropertyInputType.
    rewrite String.eqb_refl, (truthy_length_nonempty _ Hne). cbn [orb andb].
    rewrite lookup_insert_ne by apply payload_name_not_input_name.
    now rewrite !lookup_insert_eq. }
  do 2 eexists. exists input. split; [reflexivity|].
  destruct (Nat.eqb (count_named removeName (ot_fields mutationType)) 0).
  - rewrite generatedTypes_DELETE_other
      by (apply not_eq_sym, payload_name_not_input_name).
    now rewrite <- Hsame.
  - now rewrite <- Hsame.
Qed.
End WriteProperties.

Section UnreferencedInputType.
Context `{Collaborators}.
Variable d : RelationshipDescriptor.
Variable config : Config.

(** X16. For a descriptor with property input values but no property output
    fields, a run that adds the Add field writes the property input type
    [_<outputType>Input] although the Add field takes the two node selection
    arguments only: no argument of the field refers to the type. *)
Theorem input_type_without_data_argument
    (typeDefinitionMap generatedTypeMap : gmap string TypeDefinition)
    (operationTypeMap : gmap string ObjectTypeDefinition)
    (mutationType : ObjectTypeDefinition) (addName : string) :
  operationTypeMap !! OperationType_MUTATION = Some mutationType ->
  shouldAugmentRelationshipField config "mutation" (fromType d) (toType d) = true ->
  buildRelationshipMutationName
    RelationshipMutation_CREATE (typeName d) (fieldName d) = Ok addName ->
  count_named addName (ot_fields mutationType) = 0 ->
  propertyInputValues d <> [] ->
  propertyOutputFields d = [] ->
  exists generatedTypeMap' operationTypeMap' addField input,
    augmentRelationshipMutationAPI
      d typeDefinitionMap generatedTypeMap operationTypeMap config
    = Ok (typeDefinitionMap, generatedTypeMap', operationTypeMap')
    /\ addField ∈ mutationFields operationTypeMap'
    /\ fd_name addField = {| value := addName |}
    /\ fd_arguments addField
       = [ buildInputValue (buildName "from") (nonNullInput (fromType d));
           buildInputValue (buildName "to") (nonNullInput (toType d)) ]
    /\ generatedTypeMap' !! ("_" +:+ outputType d +:+ "Input")
       = Some (InputObjectType input).
Proof.
  intros Hm Hs Hadd Ha Hin Hout.
  assert (Hf : fieldName d <> "").
  { intros Hf. rewrite Hf in Hadd. discriminate. }
  destruct (buildRelationshipMutationName_total
              RelationshipMutation_DELETE (typeName d) _ Hf) as [removeName Hrem].
  rewrite (augment_closed_form d config _ _ _ _ _ _ Hm Hs Hadd Hrem).
  rewrite Ha. cbn [Nat.eqb].
  destruct (generatedTypes_CREATE_input d addName generatedTypeMap Hin)
    as (input & Hlook & _).
  exists
    (if Nat.eqb (count_named removeName (ot_fields mutationType)) 0
     then generatedTypes d RelationshipMutation_DELETE removeName
            (generatedTypes d RelationshipMutation_CREATE addName generatedTypeMap)
     else generatedTypes d RelationshipMutation_CREATE addName generatedTypeMap).
  eexists. exists (generatedField d config RelationshipMutation_CREATE addName), input.
  split; [reflexivity|]. split; [|split; [reflexivity|split]].
  - unfold mutationFields. rewrite lookup_insert_eq. cbn [ot_fields].
    apply elem_of_app. right. apply elem_of_app. left.
    apply list_elem_of_here.
  - cbn [generatedField buildField fd_arguments].
    unfold buildRelationshipMutationArguments. rewrite Hout. reflexivity.
  - destruct (Nat.eqb (count_named removeName (ot_fields mutationType)) 0);
      [|exact Hlook].
    rewrite generatedTypes_DELETE_other
      by (apply not_eq_sym, payload_name_not_input_name).
    exact Hlook.
Qed.
End UnreferencedInputType.

(** * The further properties on the sample relationship *)


Lemma unknown_action_is_ignored_witness :
  @buildRelationshipMutationAPI sampleCarriers sampleCollaborators
    "Update" "UpdatePersonKnows" "KNOWS" "Person" "Person"
    sampleInputs [sampleSince] "Knows" ∅ sampleOperationTypeMap sampleConfig
  = Ok (sampleOperationTypeMap, ∅).
Proof.
  apply (@unknown_action_is_ignored sampleCarriers sampleCollaborators
           "Update" "UpdatePersonKnows" "KNOWS" "Person" "Person"
           sampleInputs [sampleSince] "Knows" ∅ sampleOperationTypeMap
           sampleConfig);
    discriminate.
Defined.

Lemma authorization_directive_iff_witness :
  length (@buildRelationshipMutationDirectives sampleCarriers sampleCollaborators
            RelationshipMutation_DELETE "KNOWS" "Person" "Person" [] sampleConfig)
  = 2.
Proof.
  apply (proj2 (@authorization_directive_iff sampleCarriers sampleCollaborators
                  RelationshipMutation_DELETE "KNOWS" "Person" "Person" []
                  sampleConfig)).
  split; [reflexivity | right; reflexivity].
Defined.

Lemma add_names_and_remove_names_are_disjoint_witness :
  "AddPersonKnows" <> "RemoveMovieActors".
Proof.
  apply (add_names_and_remove_names_are_disjoint
           "Person" "knows" "Movie" "actors"); reflexivity.
Defined.

Lemma mutation_names_collide_witness :
  buildRelationshipMutationName RelationshipMutation_CREATE "Movie" "xRay"
  = buildRelationshipMutationName RelationshipMutation_CREATE "MovieX" "Ray".
Proof.
  apply (proj2 (mutation_names_collide
                  RelationshipMutation_CREATE "Movie" "x"%char "Ray")
           "R"%char "ay"); reflexivity.
Defined.

Lemma input_type_of_computed_properties_witness :
  exists input,
    @buildRelationshipMutationPropertyInputType sampleCarriers sampleCollaborators
      RelationshipMutation_CREATE "Knows" sampleComputedInputs ∅ !! "_KnowsInput"
    = Some (InputObjectType input)
    /\ io_fields input = [].
Proof.
  assert (Hne : sampleComputedInputs <> []) by discriminate.
  destruct (@input_type_of_computed_properties
              sampleCarriers sampleCollaborators "Knows" sampleComputedInputs ∅ Hne)
    as (input & Hlook & _ & Hempty).
  exists input. split; [exact Hlook|].
  apply Hempty. repeat constructor. discriminate.
Defined.

Lemma orchestrator_throws_iff_witness :
  exists triple, sampleRun sampleUnnamed ∅ ∅ ∅ = Ok triple.
Proof.
  apply (proj2 (@orchestrator_throws_iff
                  sampleCarriers sampleCollaborators sampleUnnamed sampleConfig
                  ∅ ∅ ∅)).
  intros ([mutationType Hsome] & _). rewrite lookup_empty in Hsome.
  discriminate Hsome.
Defined.

Lemma orchestrator_noop_iff_witness :
  exists generatedTypeMap' operationTypeMap',
    sampleRun sampleKnows ∅ ∅ sampleOperationTypeMap
    = Ok (∅, generatedTypeMap', operationTypeMap')
    /\ operationTypeMap' <> sampleOperationTypeMap.
Proof.
  pose proof (@augment_closed_form
                sampleCarriers sampleCollaborators sampleKnows sampleConfig
                ∅ ∅ sampleOperationTypeMap
                {| ot_name := buildName "Mutation"; ot_fields := [];
                   ot_directives := [] |}
                "AddPersonKnows" "RemovePersonKnows"
                eq_refl eq_refl eq_refl eq_refl) as Hrun.
  cbv zeta in Hrun. do 2 eexists. split; [exact Hrun|].
  intros Hsame.
  apply (proj1 (proj1 (@orchestrator_noop_iff
                         sampleCarriers sampleCollaborators sampleKnows
                         sampleConfig ∅ ∅ sampleOperationTypeMap _ _ _ Hrun)))
    in Hsame.
  destruct Hsame as [Habs | [Habs | (a & r & Ha & _ & Hca & _)]];
    [discriminate Habs | discriminate Habs |].
  injection Ha as <-. apply Hca. reflexivity.
Defined.

Lemma colliding_descriptor_adds_nothing_witness :
  exists generatedTypeMap' operationTypeMap',
    sampleRun sampleKnows ∅ ∅ sampleOperationTypeMap
    = Ok (∅, generatedTypeMap', operationTypeMap')
    /\ sampleRun sampleLikes ∅ generatedTypeMap' operationTypeMap'
       = Ok (∅, generatedTypeMap', operationTypeMap').
Proof.
  pose proof (@augment_closed_form
                sampleCarriers sampleCollaborators sampleKnows sampleConfig
                ∅ ∅ sampleOperationTypeMap
                {| ot_name := buildName "Mutation"; ot_fields := [];
                   ot_directives := [] |}
                "AddPersonKnows" "RemovePersonKnows"
                eq_refl eq_refl eq_refl eq_refl) as Hrun.
  cbv zeta in Hrun. do 2 eexists. split; [exact Hrun|].
  apply (@colliding_descriptor_adds_nothing
           sampleCarriers sampleCollaborators sampleKnows sampleConfig sampleLikes
           ∅ ∅ sampleOperationTypeMap _ _ _ eq_refl (fun _ => eq_refl) Hrun).
Defined.

Lemma mutation_fields_only_appended_witness :
  exists generatedTypeMap' operationTypeMap' added,
    sampleRun sampleKnows ∅ ∅ sampleOperationTypeMapWithAdd
    = Ok (∅, generatedTypeMap', operationTypeMap')
    /\ mutationFields operationTypeMap' = [sampleDeclaredAdd] ++ added
    /\ length added <= 2.
Proof.
  pose proof (@augment_closed_form
                sampleCarriers sampleCollaborators sampleKnows sampleConfig
                ∅ ∅ sampleOperationTypeMapWithAdd
                {| ot_name := buildName "Mutation"; ot_fields := [sampleDeclaredAdd];
                   ot_directives := [] |}
                "AddPersonKnows" "RemovePersonKnows"
                eq_refl eq_refl eq_refl eq_refl) as Hrun.
  cbv zeta in Hrun.
  destruct (@mutation_fields_only_appended
              sampleCarriers sampleCollaborators sampleKnows sampleConfig
              ∅ ∅ sampleOperationTypeMapWithAdd
              {| ot_name := buildName "Mutation"; ot_fields := [sampleDeclaredAdd];
                 ot_directives := [] |}
              _ _ _ eq_refl Hrun)
    as (mutationType' & added & Hm' & _ & _ & Hfields & Hlen & _).
  do 2 eexists. exists added. split; [exact Hrun|].
  unfold mutationFields. rewrite Hm'. split; assumption.
Defined.

Lemma fresh_run_appends_add_then_remove_witness :
  exists generatedTypeMap' operationTypeMap' addField removeField,
    sampleRun sampleKnows ∅ ∅ sampleOperationTypeMap
    = Ok (∅, generatedTypeMap', operationTypeMap')
    /\ mutationFields operationTypeMap' = [addField; removeField]
    /\ fd_name addField = {| value := "AddPersonKnows" |}
    /\ fd_name removeField = {| value := "RemovePersonKnows" |}.
Proof.
  destruct (@fresh_run_appends_add_then_remove
              sampleCarriers sampleCollaborators sampleKnows sampleConfig
              ∅ ∅ sampleOperationTypeMap
              {| ot_name := buildName "Mutation"; ot_fields := [];
                 ot_directives := [] |}
              "AddPersonKnows" "RemovePersonKnows"
              eq_refl eq_refl eq_refl eq_refl eq_refl eq_refl)
    as (g & o & addField & removeField & Hrun & Hfields & Ha & Hr & _).
  exists g, o, addField, removeField. repeat split; assumption.
Defined.

Lemma added_fields_have_their_payload_types_witness :
  exists generatedTypeMap' operationTypeMap' field payload,
    sampleRun sampleKnows ∅ ∅ sampleOperationTypeMap
    = Ok (∅, generatedTypeMap', operationTypeMap')
    /\ field ∈ mutationFields operationTypeMap'
    /\ value (fd_name field) = "AddPersonKnows"
    /\ generatedTypeMap' !! "_AddPersonKnowsPayload" = Some (ObjectType payload).
Proof.
  pose proof (@augment_closed_form
                sampleCarriers sampleCollaborators sampleKnows sampleConfig
                ∅ ∅ sampleOperationTypeMap
                {| ot_name := buildName "Mutation"; ot_fields := [];
                   ot_directives := [] |}
                "AddPersonKnows" "RemovePersonKnows"
                eq_refl eq_refl eq_refl eq_refl) as Hrun.
  cbv zeta in Hrun. cbn [count_named ot_fields List.filter length Nat.eqb] in Hrun.
  destruct (@added_fields_have_their_payload_types
              sampleCarriers sampleCollaborators sampleKnows sampleConfig
              ∅ ∅ sampleOperationTypeMap
              {| ot_name := buildName "Mutation"; ot_fields := [];
                 ot_directives := [] |}
              _ _ _ eq_refl Hrun
              (@generatedField sampleCarriers sampleCollaborators sampleKnows
                 sampleConfig RelationshipMutation_CREATE "AddPersonKnows"))
    as (_ & payload & Hlook & _).
  - unfold mutationFields. rewrite lookup_insert_eq. apply list_elem_of_here.
  - apply not_elem_of_nil.
  - do 2 eexists.
    exists (@generatedField sampleCarriers sampleCollaborators sampleKnows
              sampleConfig RelationshipMutation_CREATE "AddPersonKnows"), payload.
    split; [exact Hrun|]. split.
    + unfold mutationFields. rewrite lookup_insert_eq. apply list_elem_of_here.
    + split; [reflexivity | exact Hlook].
Defined.

Lemma generated_types_frame_witness :
  exists generatedTypeMap' operationTypeMap',
    sampleRun sampleKnows ∅ ∅ sampleOperationTypeMap
    = Ok (∅, generatedTypeMap', operationTypeMap')
    /\ generatedTypeMap' !! "Person" = None.
Proof.
  pose proof (@augment_closed_form
                sampleCarriers sampleCollaborators sampleKnows sampleConfig
                ∅ ∅ sampleOperationTypeMap
                {| ot_name := buildName "Mutation"; ot_fields := [];
                   ot_directives := [] |}
                "AddPersonKnows" "RemovePersonKnows"
                eq_refl eq_refl eq_refl eq_refl) as Hrun.
  cbv zeta in Hrun. do 2 eexists. split; [exact Hrun|].
  match goal with |- ?g !! _ = None => destruct (g !! "Person") as [type|] eqn:L end;
    [|reflexivity].
  exfalso.
  destruct (proj2 (@generated_types_frame
                     sampleCarriers sampleCollaborators sampleKnows sampleConfig
                     ∅ ∅ sampleOperationTypeMap _ _ _ Hrun "Person"))
    as [Hinput | (a & n & _ & _ & Hpayload)].
  - rewrite L, lookup_empty. discriminate.
  - discriminate Hinput.
  - discriminate Hpayload.
Defined.

Lemma existing_add_field_blocks_input_type_witness :
  exists generatedTypeMap' operationTypeMap' removeField,
    sampleRun sampleKnows ∅ ∅ sampleOperationTypeMapWithAdd
    = Ok (∅, generatedTypeMap', operationTypeMap')
    /\ mutationFields operationTypeMap' = [sampleDeclaredAdd; removeField]
    /\ generatedTypeMap' !! "_KnowsInput" = None.
Proof.
  assert (Hadd : count_named "AddPersonKnows" [sampleDeclaredAdd] <> 0)
    by discriminate.
  destruct (@existing_add_field_blocks_input_type
              sampleCarriers sampleCollaborators sampleKnows sampleConfig
              ∅ ∅ sampleOperationTypeMapWithAdd
              {| ot_name := buildName "Mutation"; ot_fields := [sampleDeclaredAdd];
                 ot_directives := [] |}
              "AddPersonKnows" "RemovePersonKnows"
              eq_refl eq_refl eq_refl eq_refl Hadd eq_refl)
    as (g & o & removeField & Hrun & Hfields & _ & _ & Hinput).
  exists g, o, removeField. split; [exact Hrun|]. split; [exact Hfields|].
  rewrite <- (lookup_empty (M := gmap string) (A := @TypeDefinition sampleCarriers)
                "_KnowsInput").
  exact Hinput.
Defined.

Lemma fresh_add_defines_input_type_witness :
  exists generatedTypeMap' operationTypeMap' input,
    sampleRun sampleKnows ∅ ∅ sampleOperationTypeMap
    = Ok (∅, generatedTypeMap', operationTypeMap')
    /\ generatedTypeMap' !! "_KnowsInput" = Some (InputObjectType input)
    /\ io_name input = {| value := "_KnowsInput" |}.
Proof.
  assert (Hne : propertyInputValues sampleKnows <> []) by discriminate.
  destruct (@fresh_add_defines_input_type
              sampleCarriers sampleCollaborators sampleKnows sampleConfig
              ∅ ∅ sampleOperationTypeMap
              {| ot_name := buildName "Mutation"; ot_fields := [];
                 ot_directives := [] |}
              "AddPersonKnows" eq_refl eq_refl eq_refl eq_refl Hne)
    as (g & o & input & Hrun & Hlook & Hname & _).
  exists g, o, input. repeat split; assumption.
Defined.

Lemma input_type_without_data_argument_witness :
  exists generatedTypeMap' operationTypeMap' addField input,
    sampleRun (samplePersonKnows sampleInputs []) ∅ ∅ sampleOperationTypeMap
    = Ok (∅, generatedTypeMap', operationTypeMap')
    /\ addField ∈ mutationFields operationTypeMap'
    /\ length (fd_arguments addField) = 2
    /\ generatedTypeMap' !! "_KnowsInput" = Some (InputObjectType input).
Proof.
  assert (Hne : propertyInputValues (samplePersonKnows sampleInputs []) <> [])
    by discriminate.
  destruct (@input_type_without_data_argument
              sampleCarriers sampleCollaborators
              (samplePersonKnows sampleInputs []) sampleConfig
              ∅ ∅ sampleOperationTypeMap
              {| ot_name := buildName "Mutation"; ot_fields := [];
                 ot_directives := [] |}
              "AddPersonKnows" eq_refl eq_refl eq_refl eq_refl Hne eq_refl)
    as (g & o & addField & input & Hrun & Hin & _ & Hargs & Hlook).
  exists g, o, addField, input. split; [exact Hrun|]. split; [exact Hin|].
  split; [now rewrite Hargs | exact Hlook].
Defined.
